(** * AgroMonitor quota governor

    A shallow embedding of the quota code of [copernicus_collector.py]
    ([PU_COSTS], [load_quota], [save_quota], [check_quota], [use_quota],
    [get_quota_status]) and the properties of its budget ledger.

    - The quota is a Python [dict] read from and written to a JSON file; it
      is a finite map from key strings to Python values.
    - The file system and the wall clock are explicit.  Every function is a
      computation over a [World] that returns a value or raises a Python
      exception; what was written before an exception stays written.
    - [datetime.now()] is read from a clock that may show a different time
      at every call, so that a function that calls it several times sees
      time pass.
    - Integers are unbounded, as in Python.  The one float of the code, the
      percentage of the status view, is kept as an exact rational.
    - Messages printed on the console are left out. *)

From Stdlib Require Import ZArith QArith Lia Ascii String.
From stdpp Require Import gmap strings list.

Local Open Scope string_scope.
Local Open Scope Z_scope.

(** ** Python values and exceptions *)

(** The values the quota file holds: the program only ever writes integers,
    strings and [None] into it. *)
Inductive pyval : Type :=
  | PInt (n : Z)
  | PStr (s : string)
  | PNone.

#[global] Instance pyval_eq_dec : EqDecision pyval.
Proof. solve_decision. Defined.

Abbreviation dict := (gmap string pyval).

Inductive exn : Type :=
  | KeyError (key : string)
  | TypeError
  | ValueError
  | ZeroDivisionError
  | JSONDecodeError.

Inductive result (A : Type) : Type :=
  | Ok (a : A)
  | Raise (e : exn).
Arguments Ok {A} a.
Arguments Raise {A} e.

(** ** The datetime library, as far as the quota code uses it *)

Module Datetime.

Record datetime : Type := mk_dt {
  year : Z; month : Z; day : Z;
  hour : Z; minute : Z; second : Z; microsecond : Z
}.

Definition MINYEAR : Z := 1.
Definition MAXYEAR : Z := 9999.

Definition is_leap (y : Z) : bool :=
  (y mod 4 =? 0) && (negb (y mod 100 =? 0) || (y mod 400 =? 0)).

Definition days_in_month (y m : Z) : Z :=
  if m =? 2 then (if is_leap y then 29 else 28)
  else if (m =? 4) || (m =? 6) || (m =? 9) || (m =? 11) then 30
  else 31.

(** Number of days before January 1st of year [y]. *)
Definition days_before_year (y : Z) : Z :=
  let y' := y - 1 in y' * 365 + y' / 4 - y' / 100 + y' / 400.

(** The table [_DAYS_BEFORE_MONTH] for a non-leap year. *)
Definition DAYS_BEFORE_MONTH (m : Z) : Z :=
  match m with
  | 1 => 0 | 2 => 31 | 3 => 59 | 4 => 90 | 5 => 120 | 6 => 151
  | 7 => 181 | 8 => 212 | 9 => 243 | 10 => 273 | 11 => 304 | 12 => 334
  | _ => 0
  end.

Definition days_before_month (y m : Z) : Z :=
  DAYS_BEFORE_MONTH m + (if (2 <? m) && is_leap y then 1 else 0).

Definition ymd2ord (y m d : Z) : Z :=
  days_before_year y + days_before_month y m + d.

Definition toordinal (t : datetime) : Z := ymd2ord (year t) (month t) (day t).

Definition valid_date (y m d : Z) : bool :=
  (MINYEAR <=? y) && (y <=? MAXYEAR) && (1 <=? m) && (m <=? 12)
  && (1 <=? d) && (d <=? days_in_month y m).

Definition valid_time (t : datetime) : bool :=
  (0 <=? hour t) && (hour t <? 24) && (0 <=? minute t) && (minute t <? 60)
  && (0 <=? second t) && (second t <? 60)
  && (0 <=? microsecond t) && (microsecond t <? 1000000).

Definition valid (t : datetime) : bool :=
  valid_date (year t) (month t) (day t) && valid_time t.

(** [datetime(y, m, d)]: midnight of that day; [ValueError] when the date
    does not exist. *)
Definition datetime_ymd (y m d : Z) : result datetime :=
  if valid_date y m d then Ok (mk_dt y m d 0 0 0 0) else Raise ValueError.

Record timedelta : Type := mk_td { days : Z; seconds : Z; microseconds : Z }.

(** [timedelta(d, s, us)] normalises to [0 <= seconds < 86400] and
    [0 <= microseconds < 1000000], carrying into the days. *)
Definition timedelta_new (d s us : Z) : timedelta :=
  let s1 := s + us / 1000000 in
  mk_td (d + s1 / 86400) (s1 mod 86400) (us mod 1000000).

(** [a - b] on two datetimes. *)
Definition sub (a b : datetime) : timedelta :=
  timedelta_new
    (toordinal a - toordinal b)
    ((second a + minute a * 60 + hour a * 3600)
     - (second b + minute b * 60 + hour b * 3600))
    (microsecond a - microsecond b).

(** *** Formatting *)

Definition digit (n : Z) : ascii := ascii_of_N (Z.to_N (48 + n mod 10)).

Definition pad2 (n : Z) : string :=
  String (digit (n / 10)) (String (digit n) EmptyString).

Definition pad4 (n : Z) : string :=
  String (digit (n / 1000)) (String (digit (n / 100)) (pad2 n)).

Definition pad6 (n : Z) : string :=
  String (digit (n / 100000)) (String (digit (n / 10000)) (pad4 n)).

(** [t.strftime('%Y-%m')] *)
Definition strftime_Ym (t : datetime) : string :=
  pad4 (year t) ++ "-" ++ pad2 (month t).

(** [t.strftime('%Y-%m-%d')] *)
Definition strftime_Ymd (t : datetime) : string :=
  strftime_Ym t ++ "-" ++ pad2 (day t).

(** [t.isoformat()]: the fraction is printed only when it is not zero. *)
Definition isoformat (t : datetime) : string :=
  strftime_Ymd t ++ "T" ++ pad2 (hour t) ++ ":" ++ pad2 (minute t)
  ++ ":" ++ pad2 (second t)
  ++ (if microsecond t =? 0 then "" else "." ++ pad6 (microsecond t)).

End Datetime.
Import Datetime.

(** ** The world: the quota file and the clock *)

(** [QUOTA_FILE] on disk: absent, present but not a JSON document (an empty
    or partly written file), or a JSON object. *)
Inductive file_state : Type :=
  | NoFile
  | Corrupt
  | Stored (quota : dict).

(** [clock w n] is what the [n]-th call of [datetime.now()] returns;
    [ticks w] counts the calls made so far. *)
Record World : Type := mk_world {
  fs : file_state;
  clock : nat -> datetime;
  ticks : nat
}.

Definition M (A : Type) : Type := World -> result A * World.

Definition ret {A} (a : A) : M A := fun w => (Ok a, w).

Definition bind {A B} (m : M A) (k : A -> M B) : M B :=
  fun w => match m w with
           | (Ok a, w') => k a w'
           | (Raise e, w') => (Raise e, w')
           end.

Definition lift {A} (r : result A) : M A := fun w => (r, w).

Notation "'do' x <- m ; k" := (bind m (fun x => k))
  (at level 10, x name, m at level 100, k at level 200).
Notation "'run' m ; k" := (bind m (fun _ => k))
  (at level 10, m at level 100, k at level 200).

(** [datetime.now()] *)
Definition now : M datetime :=
  fun w => (Ok (clock w (ticks w)), mk_world (fs w) (clock w) (S (ticks w))).

Definition set_fs (f : file_state) : M unit :=
  fun w => (Ok tt, mk_world f (clock w) (ticks w)).

(** [os.path.exists(QUOTA_FILE)] *)
Definition path_exists : M bool :=
  fun w => (Ok (match fs w with NoFile => false | _ => true end), w).

(** [json.load(f)] on the quota file, which exists. *)
Definition json_load : M dict :=
  fun w => match fs w with
           | Stored q => (Ok q, w)
           | _ => (Raise JSONDecodeError, w)
           end.

(** [open(QUOTA_FILE, 'w')]: the file is created or cut to length zero. *)
Definition open_w : M unit := set_fs Corrupt.

(** [json.dump(quota, f, indent=4)] followed by the close of the file. *)
Definition json_dump (quota : dict) : M unit := set_fs (Stored quota).

(** ** Dictionary and arithmetic primitives *)

(** [quota[key]] *)
Definition getitem (quota : dict) (key : string) : result pyval :=
  match quota !! key with
  | Some v => Ok v
  | None => Raise (KeyError key)
  end.

(** [quota.get(key, default)] *)
Definition get (quota : dict) (key : string) (default : pyval) : pyval :=
  match quota !! key with
  | Some v => v
  | None => default
  end.

(** [a - b]: defined on integers only, among the values of a quota. *)
Definition py_sub (a b : pyval) : result Z :=
  match a, b with
  | PInt x, PInt y => Ok (x - y)
  | _, _ => Raise TypeError
  end.

(** [a + n] for an integer [n]. *)
Definition py_add_int (a : pyval) (n : Z) : result Z :=
  match a with
  | PInt x => Ok (x + n)
  | _ => Raise TypeError
  end.

(** [a // b] on integers: floor division, [ZeroDivisionError] on zero. *)
Definition py_floordiv (a b : Z) : result Z :=
  if b =? 0 then Raise ZeroDivisionError else Ok (a / b).

(** [a / b]: true division.  Python returns the float nearest to the
    quotient of the two integers; the model keeps the exact quotient. *)
Definition py_truediv (a b : pyval) : result Q :=
  match a, b with
  | PInt x, PInt y =>
      if y =? 0 then Raise ZeroDivisionError
      else Ok (inject_Z x / inject_Z y)%Q
  | _, _ => Raise TypeError
  end.

Definition rbind {A B} (r : result A) (k : A -> result B) : result B :=
  match r with
  | Ok a => k a
  | Raise e => Raise e
  end.

Notation "'val' x <- r ; k" := (rbind r (fun x => k))
  (at level 10, x name, r at level 100, k at level 200).

(** ** The quota governor *)

(** Estimated processing units per operation. *)
Definition PU_COSTS : gmap string Z :=
  list_to_map
    [ ("map_rgb", 50); ("map_ndvi", 50); ("ndvi", 30); ("ndwi", 30);
      ("ndsi", 30); ("zonal_stats", 40) ].

(** [save_quota(quota)].  The dictionary is stamped in place, so the caller
    sees the stamp too: the stamped dictionary is returned. *)
Definition save_quota (quota : dict) : M dict :=
  do t <- now;
  let quota := <["last_updated" := PStr (isoformat t)]> quota in
  run open_w;
  run json_dump quota;
  ret quota.

(** The dictionary [load_quota] builds when there is no file; [t1] and [t2]
    are the two clock readings the literal makes. *)
Definition default_quota (t1 t2 : datetime) : dict :=
  list_to_map
    [ ("monthly_limit_pu", PInt 10000);
      ("monthly_limit_requests", PInt 10000);
      ("current_month", PStr (strftime_Ym t1));
      ("processing_units_used", PInt 0);
      ("requests_used", PInt 0);
      ("last_updated", PStr (isoformat t2));
      ("daily_budget_pu", PInt 300);
      ("daily_budget_requests", PInt 300);
      ("collections_today", PInt 0);
      ("last_collection_date", PNone) ].

(** The reset [load_quota] applies when a new month is detected. *)
Definition reset_month (current_month : string) (quota : dict) : dict :=
  let quota := <["current_month" := PStr current_month]> quota in
  let quota := <["processing_units_used" := PInt 0]> quota in
  let quota := <["requests_used" := PInt 0]> quota in
  <["collections_today" := PInt 0]> quota.

Definition load_quota : M dict :=
  do present <- path_exists;
  if present : bool then
    do quota <- json_load;
    do t <- now;
    let current_month := strftime_Ym t in
    if bool_decide (get quota "current_month" PNone <> PStr current_month)
    then save_quota (reset_month current_month quota)
    else ret quota
  else
    do t1 <- now;
    do t2 <- now;
    save_quota (default_quota t1 t2).

(** [quota['monthly_limit_pu'] - quota['processing_units_used']] *)
Definition remaining_pu (quota : dict) : result Z :=
  val limit <- getitem quota "monthly_limit_pu";
  val used <- getitem quota "processing_units_used";
  py_sub limit used.

(** [quota['monthly_limit_requests'] - quota['requests_used']] *)
Definition remaining_req (quota : dict) : result Z :=
  val limit <- getitem quota "monthly_limit_requests";
  val used <- getitem quota "requests_used";
  py_sub limit used.

(** [check_quota(operation_type, pu_cost)]; the source's defaults are
    ['general'] and [50]. *)
Definition check_quota (operation_type : string) (pu_cost : Z) : M bool :=
  do quota <- load_quota;
  do rem_pu <- lift (remaining_pu quota);
  do rem_req <- lift (remaining_req quota);
  if rem_pu <? pu_cost then ret false
  else if rem_req <? 1 then ret false
  else ret true.

(** [quota[key] += n] *)
Definition iadd (quota : dict) (key : string) (n : Z) : result dict :=
  val v <- getitem quota key;
  val s <- py_add_int v n;
  Ok (<[key := PInt s]> quota).

(** The daily counter update of [use_quota]. *)
Definition update_daily (today : string) (quota : dict) : result dict :=
  if bool_decide (get quota "last_collection_date" PNone <> PStr today)
  then Ok (<["last_collection_date" := PStr today]>
             (<["collections_today" := PInt 1]> quota))
  else iadd quota "collections_today" 1.

(** [PU_COSTS.get(operation_type, 30)], used when [pu_cost is None]. *)
Definition resolve_cost (operation_type : string) (pu_cost : option Z) : Z :=
  match pu_cost with
  | Some c => c
  | None => match PU_COSTS !! operation_type with
            | Some c => c
            | None => 30
            end
  end.

(** [use_quota(operation_type, pu_cost=None)] *)
Definition use_quota (operation_type : string) (pu_cost : option Z) : M unit :=
  do quota <- load_quota;
  let pu_cost := resolve_cost operation_type pu_cost in
  do quota <- lift (iadd quota "processing_units_used" pu_cost);
  do quota <- lift (iadd quota "requests_used" 1);
  do t <- now;
  do quota <- lift (update_daily (strftime_Ymd t) quota);
  do quota <- save_quota quota;
  do rem_pu <- lift (remaining_pu quota);
  ret tt.

(** Whole days from [today] to the first day of the next month. *)
Definition days_remaining_in_month (today : datetime) : result Z :=
  val next_month <-
    (if month today =? 12 then datetime_ymd (year today + 1) 1 1
     else datetime_ymd (year today) (month today + 1) 1);
  Ok (days (sub next_month today)).

(** [remaining_pu // max(days_remaining, 1) if days_remaining > 0 else 0] *)
Definition safe_daily_pu (rem_pu days_remaining : Z) : result Z :=
  if 0 <? days_remaining then py_floordiv rem_pu (Z.max days_remaining 1)
  else Ok 0.

Record status : Type := mk_status {
  st_pu_used : pyval;
  st_pu_remaining : Z;
  st_pu_limit : pyval;
  st_requests_used : pyval;
  st_requests_remaining : Z;
  st_percent_used : Q;
  st_days_remaining : Z;
  st_safe_daily_pu : Z;
  st_collections_today : pyval
}.

(** [(quota['processing_units_used'] / quota['monthly_limit_pu']) * 100] *)
Definition percent_used (quota : dict) : result Q :=
  val used <- getitem quota "processing_units_used";
  val limit <- getitem quota "monthly_limit_pu";
  val ratio <- py_truediv used limit;
  Ok (ratio * 100)%Q.

Definition get_quota_status : M status :=
  do quota <- load_quota;
  do rem_pu <- lift (remaining_pu quota);
  do rem_req <- lift (remaining_req quota);
  do percent <- lift (percent_used quota);
  do today <- now;
  do days_remaining <- lift (days_remaining_in_month today);
  do safe <- lift (safe_daily_pu rem_pu days_remaining);
  do pu_used <- lift (getitem quota "processing_units_used");
  do pu_limit <- lift (getitem quota "monthly_limit_pu");
  do requests_used <- lift (getitem quota "requests_used");
  ret (mk_status pu_used rem_pu pu_limit requests_used rem_req percent
         days_remaining safe (get quota "collections_today" (PInt 0))).

(** ** Notions the properties are stated with *)

(** The world after [n] more clock readings, with the file set to [f]. *)
Definition advance (n : nat) (f : file_state) (w : World) : World :=
  mk_world f (clock w) (n + ticks w).

(** The next clock reading of [w], and the month and the day it shows. *)
Definition reading (w : World) : datetime := clock w (ticks w).
Definition month_now (w : World) : string := strftime_Ym (reading w).
Definition today_now (w : World) : string := strftime_Ymd (reading w).

(** The clock reading a commit that has just completed in [w] took as
    today: its last two readings are the day and the save stamp. *)
Definition commit_reading (w : World) : datetime :=
  clock w (ticks w - 2)%nat.

Definition last_commit_day (w : World) : string :=
  strftime_Ymd (commit_reading w).

Definition same_date (a b : datetime) : Prop :=
  year a = year b /\ month a = month b /\ day a = day b.

(** The stored month is not the month [cm] (the key may also be absent or
    hold something that is not a string). *)
Definition stale (cm : string) (q : dict) : Prop :=
  q !! "current_month" <> Some (PStr cm).

(** Field [key] of the quota holds the integer [n]. *)
Definition int_field (q : dict) (key : string) (n : Z) : Prop :=
  q !! key = Some (PInt n).

(** Two quotas agree on every key outside [keys]. *)
Definition same_except (keys : list string) (q q' : dict) : Prop :=
  forall k, k ∉ keys -> q' !! k = q !! k.

(** Field [key] of the document in the file, when there is one. *)
Definition stored_field (f : file_state) (key : string) : option pyval :=
  match f with
  | Stored q => q !! key
  | _ => None
  end.

(** The three counters a month rollover resets are zero. *)
Definition zeroed (q : dict) : Prop :=
  int_field q "processing_units_used" 0 /\
  int_field q "requests_used" 0 /\
  int_field q "collections_today" 0.

(** A quota of month [cm] with limit [limit], [u] units and [r] requests
    used, and an integer daily counter. *)
Definition ledger (cm : string) (limit u r : Z) (q : dict) : Prop :=
  q !! "current_month" = Some (PStr cm) /\
  int_field q "monthly_limit_pu" limit /\
  int_field q "processing_units_used" u /\
  int_field q "requests_used" r /\
  exists n, int_field q "collections_today" n.

(** What one commit of [cost] does to the quota [q] that its load returned
    in world [w1], giving the quota [q'] it saves: [n] is the stored daily
    counter, needed only when the day has not changed. *)
Definition committed (w1 : World) (cost u r n : Z) (q q' : dict) : Prop :=
  int_field q' "processing_units_used" (u + cost) /\
  int_field q' "requests_used" (r + 1) /\
  q' !! "last_collection_date" = Some (PStr (today_now w1)) /\
  int_field q' "collections_today"
    (if decide (q !! "last_collection_date" = Some (PStr (today_now w1)))
     then n + 1 else 1) /\
  q' !! "last_updated" = Some (PStr (isoformat (clock w1 (S (ticks w1))))) /\
  same_except ["processing_units_used"; "requests_used"; "collections_today";
               "last_collection_date"; "last_updated"] q q'.

(** Three commits in a row, as a collection run makes them. *)
Definition commit3 (k1 k2 k3 : string) (c1 c2 c3 : Z) : M unit :=
  run use_quota k1 (Some c1);
  run use_quota k2 (Some c2);
  use_quota k3 (Some c3).

(** [save_quota] cut short after [open(QUOTA_FILE, 'w')] and before
    [json.dump] has written the document: what a crash at that point, or a
    reader running at that point, finds. *)
Definition save_quota_interrupted (quota : dict) : M unit :=
  do t <- now;
  let quota := <["last_updated" := PStr (isoformat t)]> quota in
  open_w.

(** Microseconds from the start of day 0 of the calendar to [t]. *)
Definition instant (t : datetime) : Z :=
  ((toordinal t * 86400
    + (second t + minute t * 60 + hour t * 3600)) * 1000000)
  + microsecond t.

(** Whole days from [a] to [b]: the floor of the elapsed time in days. *)
Definition whole_days (a b : datetime) : Z :=
  (instant b - instant a) / (86400 * 1000000).

Definition at_midnight (t : datetime) : bool :=
  (hour t =? 0) && (minute t =? 0) && (second t =? 0) && (microsecond t =? 0).

(** The date [days_remaining_in_month] counts down to: midnight of the
    first day of the month after [today]'s. *)
Definition first_of_next_month (today : datetime) : datetime :=
  if month today =? 12 then mk_dt (year today + 1) 1 1 0 0 0 0
  else mk_dt (year today) (month today + 1) 1 0 0 0 0.

(** The last December the calendar type can hold. *)
Definition last_december (today : datetime) : Prop :=
  month today = 12 /\ year today = MAXYEAR.

(** ** Sample worlds *)

(** A clock that stands still. *)
Definition at_time (y m d h mi s us : Z) : nat -> datetime :=
  fun _ => mk_dt y m d h mi s us.

Definition sample_quota (limit used : Z) (cur : string) : dict :=
  list_to_map
    [ ("monthly_limit_pu", PInt limit);
      ("monthly_limit_requests", PInt 10000);
      ("current_month", PStr cur);
      ("processing_units_used", PInt used);
      ("requests_used", PInt 0);
      ("collections_today", PInt 0);
      ("last_collection_date", PNone) ].

(** Noon of 10 February 2025. *)
Definition w_feb (q : dict) : World :=
  mk_world (Stored q) (at_time 2025 2 10 12 0 0 0) 0.

(** Half past nine on day [d] of February 2025. *)
Definition w_day (q : dict) (d : Z) : World :=
  mk_world (Stored q) (at_time 2025 2 d 9 30 0 0) 0.

(** A clock that shows day [d] for its first three readings (one commit)
    and the following day from then on. *)
Definition w_two_days (q : dict) (d : Z) : World :=
  mk_world (Stored q)
    (fun n => mk_dt 2025 2 (if (n <? 3)%nat then d else d + 1) 9 30 0 0) 0.

(** A month-old file: January's counters read on a day in February. *)
Definition w_stale : World := w_feb (sample_quota 10000 9000 "2025-01").

(** No quota file yet. *)
Definition w_empty : World := mk_world NoFile (at_time 2025 2 10 12 0 0 0) 0.

(** Ten days before the end of February 2025, 3000 units left. *)
Definition w_ten_days : World :=
  mk_world (Stored (sample_quota 10000 7000 "2025-02"))
    (at_time 2025 2 18 12 0 0 0) 0.

(** A quota whose limit is zero. *)
Definition w_zero_limit : World := w_feb (sample_quota 0 0 "2025-02").

(** ** Notions for the further properties *)

(** A ledger within its limits: integer limits and counters, the counters
    between zero and their limits, an integer daily counter. *)
Definition sound_ledger (q : dict) : Prop :=
  exists limit_pu used_pu limit_req used_req n,
    int_field q "monthly_limit_pu" limit_pu /\
    int_field q "processing_units_used" used_pu /\
    int_field q "monthly_limit_requests" limit_req /\
    int_field q "requests_used" used_req /\
    int_field q "collections_today" n /\
    0 <= used_pu <= limit_pu /\ 0 <= used_req <= limit_req.

Definition sound_file (f : file_state) : Prop :=
  exists q, f = Stored q /\ sound_ledger q.

(** A series of commits with explicit costs, one after the other. *)
Fixpoint commits (l : list (string * Z)) : M unit :=
  match l with
  | [] => ret tt
  | (kind, cost) :: l' => run use_quota kind (Some cost); commits l'
  end.

Definition total_cost (l : list (string * Z)) : Z :=
  foldr (fun kc acc => snd kc + acc) 0 l.

(** The quota a computation returned, or the empty quota. *)
Definition returned (r : result dict) : dict :=
  match r with
  | Ok q => q
  | Raise _ => ∅
  end.

(** A quota without the key [monthly_limit_pu]. *)
Definition quota_no_limit : dict :=
  list_to_map
    [ ("monthly_limit_requests", PInt 10000);
      ("current_month", PStr "2025-02");
      ("processing_units_used", PInt 80);
      ("requests_used", PInt 2);
      ("collections_today", PInt 0);
      ("last_collection_date", PNone) ].


(** A file that holds no JSON document. *)
Definition w_corrupt : World :=
  mk_world Corrupt (at_time 2025 2 10 12 0 0 0) 0.

(** A stale file whose counters are unusable. *)
Definition quota_stale_garbage : dict :=
  list_to_map
    [ ("monthly_limit_pu", PInt 500);
      ("monthly_limit_requests", PInt 10);
      ("current_month", PStr "2025-01");
      ("processing_units_used", PStr "many") ].

(** The clock of [w] shows the month [cm] and the day [d] at every
    reading. *)
Definition clock_in (cm d : string) (w : World) : Prop :=
  forall n, strftime_Ym (clock w n) = cm /\ strftime_Ymd (clock w n) = d.

(** ** The collection run *)

(** [collect_all_copernicus_data] calls the quota functions around the
    data providers ([get_weather_data], [get_satellite_map],
    [get_ndvi_sentinel], [get_ndwi_sentinel], [get_ndsi_sentinel]) and ends
    with [save_results].  The providers talk to remote services: they are
    parameters here.  Each returns [None] or a value that counts as true in
    a condition (a dict of measurements that is not empty, the path of a
    saved map); [P] is the type of those values. *)

Inductive run_exn : Type :=
  | QuotaError (e : exn)        (* raised by the quota functions *)
  | AttributeError              (* [None.get(...)] in [save_results] *)
  | ExternalError (name : string). (* raised by a provider *)

Inductive outcome (A : Type) : Type :=
  | Done (a : A)
  | Failed (e : run_exn).
Arguments Done {A} a.
Arguments Failed {A} e.

Definition R (A : Type) : Type := World -> outcome A * World.

Definition rret {A} (a : A) : R A := fun w => (Done a, w).

Definition rseq {A B} (m : R A) (k : A -> R B) : R B :=
  fun w => match m w with
           | (Done a, w') => k a w'
           | (Failed e, w') => (Failed e, w')
           end.

(** A quota computation inside a run. *)
Definition quota {A} (m : M A) : R A :=
  fun w => match m w with
           | (Ok a, w') => (Done a, w')
           | (Raise e, w') => (Failed (QuotaError e), w')
           end.

Notation "'step' x <- m ; k" := (rseq m (fun x => k))
  (at level 10, x name, m at level 100, k at level 200).

Record providers (P : Type) : Type := mk_providers {
  get_weather_data : R (option P);
  get_satellite_map : string -> R (option P);
  get_ndvi_sentinel : R (option P);
  get_ndwi_sentinel : R (option P);
  get_ndsi_sentinel : R (option P);
  (** [os.makedirs('data', exist_ok=True)] in [save_results] *)
  make_data_dir : R unit;
  (** the CSV and database writes at the end of [save_results] *)
  store_row : gmap string (option P) -> R unit
}.
Arguments get_weather_data {P} _.
Arguments get_satellite_map {P} _ _.
Arguments get_ndvi_sentinel {P} _.
Arguments get_ndwi_sentinel {P} _.
Arguments get_ndsi_sentinel {P} _.
Arguments make_data_dir {P} _.
Arguments store_row {P} _ _.

(** [print_quota_status()]: it computes the status and prints it. *)
Definition print_quota_status : M unit :=
  do status <- get_quota_status;
  ret tt.

(** [estimated_pu = {'normal': 220, 'economic': 90, 'minimal': 30}] *)
Definition estimated_pu : gmap string Z :=
  list_to_map [ ("normal", 220); ("economic", 90); ("minimal", 30) ].

(** [estimated_pu.get(mode, 220)] *)
Definition estimate (mode : string) : Z :=
  match estimated_pu !! mode with
  | Some c => c
  | None => 220
  end.

(** [PU_COSTS[kind]] *)
Definition pu_cost_of (kind : string) : result Z :=
  match PU_COSTS !! kind with
  | Some c => Ok c
  | None => Raise (KeyError kind)
  end.

(** [results.get(key, {}).get(field, '')]: the first [get] gives the
    default only when the key is absent; a key that holds [None] gives
    [None], which has no [get]. *)
Definition nested_get {P} (results : gmap string (option P)) (key : string)
    : outcome unit :=
  match results !! key with
  | Some None => Failed AttributeError
  | _ => Done tt
  end.

(** The [row] of [save_results], as far as it can fail. *)
Definition build_row {P} (results : gmap string (option P)) : outcome unit :=
  match nested_get results "ndvi", nested_get results "ndwi",
        nested_get results "ndsi", nested_get results "weather" with
  | Done _, Done _, Done _, Done _ => Done tt
  | _, _, _, _ => Failed AttributeError
  end.

(** [save_results(results)] *)
Definition save_results {P} (io : providers P)
    (results : gmap string (option P)) : R unit :=
  if decide (results = ∅) then rret tt
  else
    step timestamp <- quota now;
    step made <- make_data_dir io;
    step row <- (fun w => (build_row results, w));
    store_row io results.

(** One gated operation of the run:
    [if check_quota(kind, PU_COSTS[kind]): results[kind] = op();
     if results[kind]: use_quota(kind)]. *)
Definition gated {P} (kind : string) (op : R (option P))
    (results : gmap string (option P)) : R (gmap string (option P)) :=
  step cost <- quota (lift (pu_cost_of kind));
  step admitted <- quota (check_quota kind cost);
  if admitted : bool then
    step value <- op;
    let results := <[kind := value]> results in
    match value with
    | Some _ => step used <- quota (use_quota kind None); rret results
    | None => rret results
    end
  else rret results.

(** The gated operations of a mode, in the order of the source. *)
Definition collect_steps {P} (io : providers P) (mode : string)
    (results : gmap string (option P)) : R (gmap string (option P)) :=
  if decide (mode = "normal") then
    step results <- gated "map_rgb" (get_satellite_map io "rgb") results;
    step results <- gated "map_ndvi" (get_satellite_map io "ndvi") results;
    step results <- gated "ndvi" (get_ndvi_sentinel io) results;
    step results <- gated "ndwi" (get_ndwi_sentinel io) results;
    gated "ndsi" (get_ndsi_sentinel io) results
  else if decide (mode = "economic") then
    step results <- gated "ndvi" (get_ndvi_sentinel io) results;
    step results <- gated "ndwi" (get_ndwi_sentinel io) results;
    gated "ndsi" (get_ndsi_sentinel io) results
  else
    gated "ndvi" (get_ndvi_sentinel io) results.

(** [collect_all_copernicus_data(mode)]: [None] when the run is refused,
    the results otherwise.  The summary it prints reads, of each result
    that is not [None], fields that the provider always sets; it is left
    out with the other console output. *)
Definition collect_all_copernicus_data {P} (io : providers P) (mode : string)
    : R (option (gmap string (option P))) :=
  step banner <- quota now;
  step shown <- quota print_quota_status;
  step admitted <- quota (check_quota "collection" (estimate mode));
  if negb admitted then rret None
  else
    step weather <- get_weather_data io;
    let results := <["weather" := weather]> ∅ in
    step results <- collect_steps io mode results;
    step shown <- quota print_quota_status;
    step saved <- save_results io results;
    rret (Some results).

(** [collect_economic()], [collect_minimal()] *)
Definition collect_economic {P} (io : providers P) :=
  collect_all_copernicus_data io "economic".
Definition collect_minimal {P} (io : providers P) :=
  collect_all_copernicus_data io "minimal".

(** What a computation of the run guarantees about the world it leaves,
    however it ends, when started in a world that satisfies [pre]. *)
Definition hoare {A} (pre : World -> Prop) (m : R A) (post : World -> Prop)
    : Prop :=
  forall w, pre w -> post (snd (m w)).

(** A computation of the run that leaves the quota file alone, and one
    that also leaves the clock alone (it may read it). *)
Definition keeps_file {A} (m : R A) : Prop :=
  forall w, fs (snd (m w)) = fs w.

Definition keeps_clock {A} (m : R A) : Prop :=
  forall w, clock (snd (m w)) = clock w.

(** [ok] holds of every computation the providers give. *)
Definition all_providers {P} (ok : forall A, R A -> Prop) (io : providers P)
    : Prop :=
  ok _ (get_weather_data io) /\
  (forall map_type, ok _ (get_satellite_map io map_type)) /\
  ok _ (get_ndvi_sentinel io) /\
  ok _ (get_ndwi_sentinel io) /\
  ok _ (get_ndsi_sentinel io) /\
  ok _ (make_data_dir io) /\
  (forall results, ok _ (store_row io results)).

Definition providers_keep_file {P} (io : providers P) : Prop :=
  all_providers (@keeps_file) io.

Definition providers_keep_clock {P} (io : providers P) : Prop :=
  all_providers (@keeps_clock) io.

(** The file holds a ledger of month [cm] with limit [limit] whose usage
    is between [lo] and [hi], and the clock stays in that month. *)
Definition charged_between (cm : string) (limit lo hi : Z) (w : World) : Prop :=
  (forall n, strftime_Ym (clock w n) = cm) /\
  exists q u r, fs w = Stored q /\ ledger cm limit u r q /\ lo <= u <= hi.

(** Providers that always deliver, readings a single clock tick each. *)
Definition io_ok : providers string := mk_providers string
  (fun w => (Done (Some "weather"), snd (now w)))
  (fun map_type w => (Done (Some ("data/maps/farm_" +:+ map_type)), snd (now w)))
  (fun w => (Done (Some "ndvi"), snd (now w)))
  (fun w => (Done (Some "ndwi"), snd (now w)))
  (fun w => (Done (Some "ndsi"), snd (now w)))
  (rret tt)
  (fun _ => rret tt).

(** The same, with a weather service that is down. *)
Definition io_no_weather : providers string := mk_providers string
  (fun w => (Done None, w))
  (get_satellite_map io_ok) (get_ndvi_sentinel io_ok)
  (get_ndwi_sentinel io_ok) (get_ndsi_sentinel io_ok)
  (make_data_dir io_ok) (store_row io_ok).

(** The quota a first load creates: the ten fields of the default, with
    the month [cm] and the stamp [stampv], and no other key. *)
Definition is_default (cm stampv : string) (q : dict) : Prop :=
  int_field q "monthly_limit_pu" 10000 /\
  int_field q "monthly_limit_requests" 10000 /\
  q !! "current_month" = Some (PStr cm) /\
  int_field q "processing_units_used" 0 /\
  int_field q "requests_used" 0 /\
  q !! "last_updated" = Some (PStr stampv) /\
  int_field q "daily_budget_pu" 300 /\
  int_field q "daily_budget_requests" 300 /\
  int_field q "collections_today" 0 /\
  q !! "last_collection_date" = Some PNone /\
  forall k, k ∉ ["monthly_limit_pu"; "monthly_limit_requests";
                 "current_month"; "processing_units_used"; "requests_used";
                 "last_updated"; "daily_budget_pu"; "daily_budget_requests";
                 "collections_today"; "last_collection_date"] ->
    q !! k = None.

(** The quota a rollover writes over [q0]: the three counters zero, the
    month [cm], the stamp [stampv], every other field as in [q0]. *)
Definition is_rollover (cm stampv : string) (q0 q : dict) : Prop :=
  zeroed q /\
  q !! "current_month" = Some (PStr cm) /\
  q !! "last_updated" = Some (PStr stampv) /\
  same_except ["current_month"; "processing_units_used"; "requests_used";
               "collections_today"; "last_updated"] q0 q.

(** The file of [w] is sound. *)
Definition sound_world (w : World) : Prop := sound_file (fs w).

(** * Properties *)

(** Membership of a key in a list of keys that a quota update leaves out. *)
Ltac notin_keys :=
  rewrite ?not_elem_of_cons in *;
  first [ intuition congruence
        | repeat split; first [done | apply not_elem_of_nil] ].

(** ** Formatting of dates *)

Lemma days_in_month_bounds (y m : Z) : 28 <= days_in_month y m <= 31.
Proof.
  unfold days_in_month.
  destruct (m =? 2); [destruct (is_leap y); lia|].
  destruct ((m =? 4) || (m =? 6) || (m =? 9) || (m =? 11)); lia.
Qed.

Lemma digit_inj (a b : Z) : digit a = digit b -> a mod 10 = b mod 10.
Proof.
  unfold digit. intros H. apply (f_equal N_of_ascii) in H.
  pose proof (Z.mod_pos_bound a 10 ltac:(lia)).
  pose proof (Z.mod_pos_bound b 10 ltac:(lia)).
  rewrite !N_ascii_embedding in H by lia. lia.
Qed.

Lemma pad2_inj (a b : Z) :
  0 <= a < 100 -> 0 <= b < 100 -> pad2 a = pad2 b -> a = b.
Proof.
  intros Ha Hb. unfold pad2. intros [= H1 H2].
  apply digit_inj in H1, H2. Z.div_mod_to_equations. lia.
Qed.

Lemma pad4_inj (a b : Z) :
  0 <= a < 10000 -> 0 <= b < 10000 -> pad4 a = pad4 b -> a = b.
Proof.
  intros Ha Hb. unfold pad4, pad2. intros [= H1 H2 H3 H4].
  apply digit_inj in H1, H2, H3, H4. Z.div_mod_to_equations. lia.
Qed.

(** Valid datetimes on different days print different days. *)
Lemma strftime_Ymd_inj (a b : datetime) :
  valid a = true -> valid b = true ->
  strftime_Ymd a = strftime_Ymd b -> same_date a b.
Proof.
  intros Ha Hb.
  assert (Hrange : forall t, valid t = true ->
            0 <= year t < 10000 /\ 0 <= month t < 100 /\ 0 <= day t < 100).
  { intros t Ht. unfold valid, valid_date, MINYEAR, MAXYEAR in Ht.
    pose proof (days_in_month_bounds (year t) (month t)).
    rewrite !andb_true_iff, !Z.leb_le in Ht. lia. }
  destruct (Hrange a Ha) as (Hya & Hma & Hda).
  destruct (Hrange b Hb) as (Hyb & Hmb & Hdb).
  unfold strftime_Ymd, strftime_Ym. cbn. intros [= H1 H2 H3 H4 H5 H6 H7 H8].
  unfold same_date. repeat split.
  - apply pad4_inj; [done..|]. unfold pad4, pad2. congruence.
  - apply pad2_inj; [done..|]. unfold pad2. congruence.
  - apply pad2_inj; [done..|]. unfold pad2. congruence.
Qed.

(** ** Calendar arithmetic *)

Lemma is_leap_cases (y : Z) :
  is_leap y = true /\ (y mod 4 = 0 /\ (y mod 100 <> 0 \/ y mod 400 = 0)) \/
  is_leap y = false /\ (y mod 4 <> 0 \/ (y mod 100 = 0 /\ y mod 400 <> 0)).
Proof.
  unfold is_leap.
  destruct (Z.eqb_spec (y mod 4) 0), (Z.eqb_spec (y mod 100) 0),
    (Z.eqb_spec (y mod 400) 0); cbn; lia.
Qed.

(** A year has 365 days, and one more when it is a leap year. *)
Lemma days_before_year_succ (y : Z) :
  days_before_year (y + 1) =
    days_before_year y + 365 + (if is_leap y then 1 else 0).
Proof.
  unfold days_before_year. cbv zeta.
  replace (y + 1 - 1) with y by lia.
  destruct (is_leap_cases y) as [[-> H]|[-> H]];
    Z.div_mod_to_equations; lia.
Qed.

Lemma days_before_month_succ (y m : Z) :
  1 <= m < 12 ->
  days_before_month y (m + 1) = days_before_month y m + days_in_month y m.
Proof.
  intros Hm.
  assert (Hcases : m = 1 \/ m = 2 \/ m = 3 \/ m = 4 \/ m = 5 \/ m = 6 \/
                   m = 7 \/ m = 8 \/ m = 9 \/ m = 10 \/ m = 11) by lia.
  unfold days_before_month, days_in_month.
  repeat (destruct Hcases as [->|Hcases]); try subst m;
    cbn; destruct (is_leap y); reflexivity.
Qed.

Lemma days_before_month_december (y : Z) :
  days_before_month y 12 + 31 = 365 + (if is_leap y then 1 else 0).
Proof. unfold days_before_month. cbn. destruct (is_leap y); reflexivity. Qed.

(** From a day of a month to the first of the next month. *)
Lemma toordinal_first_of_next_month (today : datetime) :
  1 <= month today <= 12 ->
  toordinal (first_of_next_month today) - toordinal today =
    days_in_month (year today) (month today) - day today + 1.
Proof.
  intros Hm. unfold first_of_next_month, toordinal, ymd2ord.
  destruct (Z.eqb_spec (month today) 12) as [E|E]; cbn [year month day].
  - rewrite E, days_before_year_succ.
    pose proof (days_before_month_december (year today)).
    unfold days_in_month, days_before_month at 1. cbn. lia.
  - rewrite days_before_month_succ by lia. lia.
Qed.

(** The [days] of a difference of datetimes is the floor of the elapsed
    time in days. *)
Lemma sub_days_floor (a b : datetime) : days (sub b a) = whole_days a b.
Proof.
  unfold sub, timedelta_new, whole_days, instant. cbn [days].
  set (d := toordinal b - toordinal a).
  set (s := second b + minute b * 60 + hour b * 3600
            - (second a + minute a * 60 + hour a * 3600)).
  set (us := microsecond b - microsecond a).
  transitivity (((d * 86400 + s) * 1000000 + us) / 1000000 / 86400).
  - rewrite Z.div_add_l by lia. rewrite <- Z.add_assoc.
    rewrite Z.div_add_l by lia. reflexivity.
  - rewrite Z.div_div by lia. unfold d, s, us. f_equal; lia.
Qed.

Lemma valid_bounds (t : datetime) :
  valid t = true ->
  (MINYEAR <= year t <= MAXYEAR) /\ (1 <= month t <= 12) /\
  (1 <= day t <= days_in_month (year t) (month t)) /\
  (0 <= hour t < 24) /\ (0 <= minute t < 60) /\ (0 <= second t < 60) /\
  (0 <= microsecond t < 1000000).
Proof.
  unfold valid, valid_date, valid_time.
  rewrite !andb_true_iff, !Z.leb_le, !Z.ltb_lt. tauto.
Qed.

Lemma instant_first_of_next_month (today : datetime) :
  instant (first_of_next_month today) =
    toordinal (first_of_next_month today) * 86400 * 1000000.
Proof.
  unfold instant, first_of_next_month.
  destruct (month today =? 12); cbn [hour minute second microsecond]; lia.
Qed.

Section ValidToday.

Context (today : datetime) (Hvalid : valid today = true).

Lemma at_midnight_iff :
  at_midnight today = true <->
  (second today + minute today * 60 + hour today * 3600) * 1000000
  + microsecond today = 0.
Proof.
  pose proof (valid_bounds today Hvalid).
  unfold at_midnight. rewrite !andb_true_iff, !Z.eqb_eq. lia.
Qed.

(** On a valid datetime the whole days to the first of the next month are
    the days left in the month after today, plus one at exactly midnight. *)
Lemma whole_days_to_next_month :
  whole_days today (first_of_next_month today) =
    days_in_month (year today) (month today) - day today
    + (if at_midnight today then 1 else 0).
Proof.
  pose proof at_midnight_iff as Hmid.
  pose proof (valid_bounds today Hvalid)
    as (_ & Hm & _ & Hh & Hmi & Hs & Hus).
  pose proof (toordinal_first_of_next_month today Hm) as Hord.
  unfold whole_days. rewrite instant_first_of_next_month.
  unfold instant in *.
  set (x := (second today + minute today * 60 + hour today * 3600) * 1000000
            + microsecond today) in *.
  set (n := days_in_month (year today) (month today) - day today) in *.
  assert (Hx : 0 <= x < 86400 * 1000000) by (unfold x; lia).
  replace (toordinal (first_of_next_month today) * 86400 * 1000000
           - ((toordinal today * 86400
               + (second today + minute today * 60 + hour today * 3600))
              * 1000000 + microsecond today))
    with ((n + 1) * (86400 * 1000000) - x) by (unfold x; lia).
  destruct (at_midnight today).
  - assert (x = 0) by (by apply Hmid).
    symmetry. apply (Z.div_unique _ _ _ 0); lia.
  - assert (x <> 0) by (intros E; apply Hmid in E; discriminate).
    symmetry. apply (Z.div_unique _ _ _ (86400 * 1000000 - x)); lia.
Qed.

(** The count is never negative: it is zero on the last day of the month,
    after midnight. *)
Lemma whole_days_to_next_month_nonneg :
  0 <= whole_days today (first_of_next_month today).
Proof.
  rewrite whole_days_to_next_month.
  pose proof (valid_bounds today Hvalid) as (_ & _ & Hd & _).
  destruct (at_midnight today); lia.
Qed.

Lemma days_remaining_in_month_run :
  ~ last_december today ->
  days_remaining_in_month today =
    Ok (days (sub (first_of_next_month today) today)) /\
  valid (first_of_next_month today) = true.
Proof.
  intros Hlast.
  pose proof (valid_bounds today Hvalid) as (Hy & Hm & _).
  unfold MINYEAR, MAXYEAR in Hy.
  unfold days_remaining_in_month, first_of_next_month, last_december in *.
  unfold MAXYEAR in Hlast.
  destruct (Z.eqb_spec (month today) 12) as [E|E].
  - assert (Hvd : valid_date (year today + 1) 1 1 = true).
    { unfold valid_date, MINYEAR, MAXYEAR.
      rewrite !andb_true_iff, !Z.leb_le. cbn. lia. }
    unfold datetime_ymd. rewrite Hvd. split; [reflexivity|].
    unfold valid. cbn [year month day]. rewrite Hvd. reflexivity.
  - assert (Hvd : valid_date (year today) (month today + 1) 1 = true).
    { unfold valid_date, MINYEAR, MAXYEAR.
      pose proof (days_in_month_bounds (year today) (month today + 1)).
      rewrite !andb_true_iff, !Z.leb_le. lia. }
    unfold datetime_ymd. rewrite Hvd. split; [reflexivity|].
    unfold valid. cbn [year month day]. rewrite Hvd. reflexivity.
Qed.

End ValidToday.

(** In the last December of the calendar the next month cannot be built. *)
Lemma days_remaining_in_month_last_december (today : datetime) :
  last_december today -> days_remaining_in_month today = Raise ValueError.
Proof.
  intros [Hm Hy]. unfold days_remaining_in_month. rewrite Hm, Hy. reflexivity.
Qed.

(** C6, as the spec states it, fails in one December: in December 9999
    the first of January of the following year is outside the calendar the
    datetime type covers, and the computation raises. *)
Lemma days_remaining_december_counterexample :
  let today := mk_dt 9999 12 15 12 0 0 0 in
  valid today = true /\ month today = 12 /\
  days_remaining_in_month today = Raise ValueError.
Proof. cbv zeta. split; [|split]; reflexivity. Qed.

(** C6, amended: for every valid datetime except in December 9999,
    [days_remaining_in_month] returns the whole days from now to midnight
    of January 1 of the following year when the month is December, and to
    midnight of the first day of the next month of the same year otherwise.
    The date it counts down to always exists; the count is the number of
    days of the month after today, plus one at exactly midnight. *)
Theorem days_remaining_in_month_rollover (today : datetime) :
  valid today = true -> ~ last_december today ->
  (month today = 12 ->
     let january := mk_dt (year today + 1) 1 1 0 0 0 0 in
     days_remaining_in_month today = Ok (whole_days today january) /\
     valid january = true /\
     whole_days today january =
       31 - day today + (if at_midnight today then 1 else 0))
  /\
  (month today <> 12 ->
     let first := mk_dt (year today) (month today + 1) 1 0 0 0 0 in
     days_remaining_in_month today = Ok (whole_days today first) /\
     valid first = true /\
     whole_days today first =
       days_in_month (year today) (month today) - day today
       + (if at_midnight today then 1 else 0)).
Proof.
  intros Hv Hlast.
  destruct (days_remaining_in_month_run today Hv Hlast) as [Hrun Hvn].
  pose proof (whole_days_to_next_month today Hv) as Hwd.
  rewrite sub_days_floor in Hrun.
  unfold first_of_next_month in *.
  split; intros Hm; cbv zeta.
  - rewrite Hm in *. cbn in Hrun, Hvn, Hwd. auto.
  - apply Z.eqb_neq in Hm. rewrite Hm in *. auto.
Qed.

Lemma days_remaining_in_month_rollover_witness :
  let today := mk_dt 2025 12 28 10 15 0 0 in
  (month today = 12 ->
     let january := mk_dt (year today + 1) 1 1 0 0 0 0 in
     days_remaining_in_month today = Ok (whole_days today january) /\
     valid january = true /\
     whole_days today january =
       31 - day today + (if at_midnight today then 1 else 0))
  /\
  (month today <> 12 ->
     let first := mk_dt (year today) (month today + 1) 1 0 0 0 0 in
     days_remaining_in_month today = Ok (whole_days today first) /\
     valid first = true /\
     whole_days today first =
       days_in_month (year today) (month today) - day today
       + (if at_midnight today then 1 else 0)).
Proof.
  apply (days_remaining_in_month_rollover (mk_dt 2025 12 28 10 15 0 0)).
  - reflexivity.
  - unfold last_december. cbn. intros [_ H]. discriminate.
Defined.

Example days_remaining_late_december :
  days_remaining_in_month (mk_dt 2025 12 28 10 15 0 0) = Ok 3.
Proof. reflexivity. Qed.

Example days_remaining_leap_february :
  days_remaining_in_month (mk_dt 2024 2 19 0 0 0 0) = Ok 11.
Proof. reflexivity. Qed.

(** ** Loading and saving *)

Lemma get_current_month_stale (cm : string) (q : dict) :
  get q "current_month" PNone <> PStr cm <-> stale cm q.
Proof.
  unfold get, stale. destruct (q !! "current_month") as [v|]; split; congruence.
Qed.

Lemma save_quota_run (quota : dict) (w : World) :
  save_quota quota w =
    let q' := <["last_updated" := PStr (isoformat (reading w))]> quota in
    (Ok q', advance 1 (Stored q') w).
Proof. reflexivity. Qed.

Lemma load_quota_same_month (w : World) (q : dict) :
  fs w = Stored q -> ~ stale (month_now w) q ->
  load_quota w = (Ok q, advance 1 (fs w) w).
Proof.
  intros Hfs Hcur. destruct w as [f c t]. cbn in Hfs. subst f.
  unfold load_quota, bind, path_exists, json_load, now. cbn [fs clock ticks].
  rewrite bool_decide_eq_false_2; [reflexivity|].
  rewrite get_current_month_stale. exact Hcur.
Qed.

Lemma load_quota_new_month (w : World) (q : dict) :
  fs w = Stored q -> stale (month_now w) q ->
  load_quota w =
    let q' := <["last_updated" := PStr (isoformat (clock w (S (ticks w))))]>
                (reset_month (month_now w) q) in
    (Ok q', advance 2 (Stored q') w).
Proof.
  intros Hfs Hst. destruct w as [f c t]. cbn in Hfs. subst f.
  unfold load_quota, bind, path_exists, json_load, now. cbn [fs clock ticks].
  rewrite bool_decide_eq_true_2; [reflexivity|].
  rewrite get_current_month_stale. exact Hst.
Qed.

Lemma load_quota_no_file (w : World) :
  fs w = NoFile ->
  load_quota w =
    let q' := <["last_updated" := PStr (isoformat (clock w (2 + ticks w)%nat))]>
                (default_quota (reading w) (clock w (S (ticks w)))) in
    (Ok q', advance 3 (Stored q') w).
Proof.
  intros Hfs. destruct w as [f c t]. cbn in Hfs. subst f. reflexivity.
Qed.

Lemma load_quota_corrupt (w : World) :
  fs w = Corrupt -> load_quota w = (Raise JSONDecodeError, w).
Proof.
  intros Hfs. destruct w as [f c t]. cbn in Hfs. subst f. reflexivity.
Qed.

Lemma stale_dec (cm : string) (q : dict) : {stale cm q} + {~ stale cm q}.
Proof.
  unfold stale.
  destruct (decide (q !! "current_month" = Some (PStr cm))); [right|left]; tauto.
Qed.

Lemma reset_month_fields (cm : string) (q : dict) :
  reset_month cm q !! "current_month" = Some (PStr cm) /\
  int_field (reset_month cm q) "processing_units_used" 0 /\
  int_field (reset_month cm q) "requests_used" 0 /\
  int_field (reset_month cm q) "collections_today" 0.
Proof. unfold reset_month, int_field. by simplify_map_eq. Qed.

Lemma reset_month_other (cm : string) (q : dict) :
  same_except ["current_month"; "processing_units_used"; "requests_used";
               "collections_today"] q (reset_month cm q).
Proof.
  intros k Hk. unfold reset_month.
  rewrite !lookup_insert_ne; [done | set_solver..].
Qed.

(** A stamped quota differs from the quota only at [last_updated]. *)
Lemma stamp_lookup (key stampv : string) (q : dict) :
  key <> "last_updated" ->
  <["last_updated" := PStr stampv]> q !! key = q !! key.
Proof. intros Hk. by rewrite lookup_insert_ne. Qed.

(** What a load returns, whenever the file is readable: the month is the
    current one and the file holds exactly the returned quota. *)
Lemma load_quota_returns (w : World) :
  fs w <> Corrupt ->
  exists q w', load_quota w = (Ok q, w') /\
    q !! "current_month" = Some (PStr (month_now w)) /\
    fs w' = Stored q /\ clock w' = clock w /\ (ticks w < ticks w')%nat.
Proof.
  intros Hfs. destruct (fs w) as [| |q0] eqn:E; [|done|].
  - eexists _, _. split; [by apply load_quota_no_file|].
    cbn. split; [|repeat split; lia].
    rewrite stamp_lookup by done. unfold month_now. reflexivity.
  - destruct (stale_dec (month_now w) q0) as [Hs|Hs].
    + eexists _, _. split; [by apply load_quota_new_month|].
      cbn. split; [|repeat split; lia].
      rewrite stamp_lookup by done. apply reset_month_fields.
    + eexists _, _. split; [by apply load_quota_same_month|].
      cbn. rewrite E. split; [|repeat split; lia].
      unfold stale in Hs. by destruct (decide (q0 !! "current_month"
        = Some (PStr (month_now w)))).
Qed.

Lemma stamp_zeroed (stampv : string) (q : dict) :
  zeroed q -> zeroed (<["last_updated" := PStr stampv]> q).
Proof.
  unfold zeroed, int_field. intros (H1 & H2 & H3).
  by rewrite !stamp_lookup.
Qed.

(** A load of a file whose counters are zero returns zero counters,
    whatever the clock shows. *)
Lemma load_quota_zeroed (w : World) (q : dict) :
  fs w = Stored q -> zeroed q ->
  exists q2 w2, load_quota w = (Ok q2, w2) /\ zeroed q2.
Proof.
  intros Hfs Hz. destruct (stale_dec (month_now w) q) as [Hs|Hs].
  - eexists _, _. split; [by apply load_quota_new_month|].
    cbn. apply stamp_zeroed. unfold zeroed.
    pose proof (reset_month_fields (month_now w) q). tauto.
  - eexists _, _. split; [by apply load_quota_same_month|]. done.
Qed.

(** C3: a load that finds a stored month other than the current calendar
    month zeroes [processing_units_used], [requests_used] and
    [collections_today], sets [current_month] to the current month and
    writes that to the file before returning, so that any later load of
    that file returns zero counters too; a load that finds the current
    month returns the stored quota as it is; and whenever a load returns,
    the quota it returns carries the current calendar month. *)
Theorem load_quota_rollover (w : World) :
  fs w <> Corrupt ->
  exists q w',
    load_quota w = (Ok q, w') /\
    q !! "current_month" = Some (PStr (month_now w)) /\
    fs w' = Stored q /\
    (forall q0, fs w = Stored q0 -> stale (month_now w) q0 ->
       zeroed q /\
       same_except ["current_month"; "processing_units_used";
                    "requests_used"; "collections_today"; "last_updated"]
                   q0 q /\
       forall w2, fs w2 = fs w' ->
         exists q2 w2', load_quota w2 = (Ok q2, w2') /\ zeroed q2) /\
    (forall q0, fs w = Stored q0 -> ~ stale (month_now w) q0 ->
       q = q0 /\ fs w' = fs w).
Proof.
  intros Hfs.
  destruct (load_quota_returns w Hfs) as (q & w' & Hload & Hcm & Hw' & _).
  exists q, w'. split; [done|]. split; [done|]. split; [done|]. split.
  - intros q0 Hq0 Hst.
    rewrite (load_quota_new_month w q0) in Hload by done.
    cbn in Hload. injection Hload as <- _.
    assert (Hz : zeroed (<["last_updated" :=
                PStr (isoformat (clock w (S (ticks w))))]>
                (reset_month (month_now w) q0))).
    { apply stamp_zeroed. unfold zeroed.
      pose proof (reset_month_fields (month_now w) q0). tauto. }
    split; [exact Hz|]. split.
    + intros k Hk. rewrite !not_elem_of_cons in Hk.
      rewrite stamp_lookup by tauto.
      apply reset_month_other. rewrite !not_elem_of_cons. tauto.
    + intros w2 Hw2. eapply load_quota_zeroed; [|exact Hz]. congruence.
  - intros q0 Hq0 Hst.
    rewrite (load_quota_same_month w q0) in Hload by done.
    inversion Hload; subst. done.
Qed.

Lemma load_quota_rollover_witness :
  exists q w',
    load_quota w_stale = (Ok q, w') /\
    q !! "current_month" = Some (PStr (month_now w_stale)) /\
    fs w' = Stored q /\
    (forall q0, fs w_stale = Stored q0 -> stale (month_now w_stale) q0 ->
       zeroed q /\
       same_except ["current_month"; "processing_units_used";
                    "requests_used"; "collections_today"; "last_updated"]
                   q0 q /\
       forall w2, fs w2 = fs w' ->
         exists q2 w2', load_quota w2 = (Ok q2, w2') /\ zeroed q2) /\
    (forall q0, fs w_stale = Stored q0 -> ~ stale (month_now w_stale) q0 ->
       q = q0 /\ fs w' = fs w_stale).
Proof. apply (load_quota_rollover w_stale). discriminate. Defined.

Example load_quota_february :
  let q := fst (load_quota w_stale) in
  (val q <- q; Ok (q !! "current_month", q !! "processing_units_used",
                   q !! "requests_used", q !! "collections_today"))
  = Ok (Some (PStr "2025-02"), Some (PInt 0), Some (PInt 0), Some (PInt 0)).
Proof. vm_compute. reflexivity. Qed.

(** ** Saving *)

(** [save_quota] passes through the interrupted state: it is the
    interrupted run followed by the dump. *)
Lemma save_quota_through_interrupted (quota : dict) (w : World) :
  save_quota quota w =
    (let stamped := <["last_updated" := PStr (isoformat (reading w))]> quota in
     run save_quota_interrupted quota;
     run json_dump stamped;
     ret stamped) w.
Proof. reflexivity. Qed.

(** C8, as the spec states it, fails: with a valid quota in the file, a
    save that is cut short after the file was opened for writing leaves no
    readable copy, neither the previous one nor the new one, and a load at
    that point raises. *)
Lemma save_quota_not_atomic_counterexample :
  let q := sample_quota 10000 9000 "2025-02" in
  let w := w_feb q in
  let crashed := snd (save_quota_interrupted q w) in
  fs w = Stored q /\
  fs crashed = Corrupt /\
  fst (load_quota crashed) = Raise JSONDecodeError.
Proof. cbv zeta. split; [|split]; reflexivity. Qed.

(** C8, amended: [save_quota] stamps [last_updated] with the current time
    and then writes the whole quota to the file in place, so that when it
    returns the file holds exactly the stamped quota.  The file is cut to
    nothing when it is opened: whatever it held before, until the dump
    completes it holds no readable document. *)
Theorem save_quota_overwrites (quota : dict) (w : World) :
  exists stamped,
    save_quota quota w = (Ok stamped, advance 1 (Stored stamped) w) /\
    stamped !! "last_updated" = Some (PStr (isoformat (reading w))) /\
    same_except ["last_updated"] quota stamped /\
    save_quota quota w =
      (run save_quota_interrupted quota; run json_dump stamped; ret stamped) w
    /\
    fs (snd (save_quota_interrupted quota w)) = Corrupt /\
    load_quota (snd (save_quota_interrupted quota w))
      = (Raise JSONDecodeError, snd (save_quota_interrupted quota w)).
Proof.
  exists (<["last_updated" := PStr (isoformat (reading w))]> quota).
  split; [apply save_quota_run|]. split; [by rewrite lookup_insert_eq|].
  split.
  { intros k Hk. apply stamp_lookup. notin_keys. }
  split; [apply save_quota_through_interrupted|].
  split; [reflexivity|]. by apply load_quota_corrupt.
Qed.

(** ** The admission check *)

Lemma remaining_pu_int (q : dict) (limit used : Z) :
  int_field q "monthly_limit_pu" limit ->
  int_field q "processing_units_used" used ->
  remaining_pu q = Ok (limit - used).
Proof. unfold remaining_pu, getitem, int_field. by intros -> ->. Qed.

Lemma remaining_req_int (q : dict) (limit used : Z) :
  int_field q "monthly_limit_requests" limit ->
  int_field q "requests_used" used ->
  remaining_req q = Ok (limit - used).
Proof. unfold remaining_req, getitem, int_field. by intros -> ->. Qed.

(** [check_quota] runs [load_quota] and then only computes. *)
Lemma check_quota_after_load (operation_type : string) (pu_cost : Z)
    (w w1 : World) (q : dict) :
  load_quota w = (Ok q, w1) ->
  check_quota operation_type pu_cost w =
    (val rem_pu <- remaining_pu q;
     val rem_req <- remaining_req q;
     Ok (negb (rem_pu <? pu_cost) && negb (rem_req <? 1)), w1).
Proof.
  intros Hload. unfold check_quota, bind, lift. rewrite Hload.
  destruct (remaining_pu q) as [rp|e]; [|reflexivity].
  destruct (remaining_req q) as [rr|e]; [|reflexivity]. cbn.
  destruct (rp <? pu_cost); [reflexivity|].
  destruct (rr <? 1); reflexivity.
Qed.

Example check_30 :
  fst (check_quota "ndvi" 30 (w_feb (sample_quota 100 80 "2025-02"))) = Ok false.
Proof. vm_compute. reflexivity. Qed.

Example check_20 :
  fst (check_quota "ndvi" 20 (w_feb (sample_quota 100 80 "2025-02"))) = Ok true.
Proof. vm_compute. reflexivity. Qed.

(** C1: on a loaded quota whose limits and counters are integers,
    [check_quota] with cost [pu_cost] returns [true] exactly when
    [monthly_limit_pu - processing_units_used >= pu_cost] and
    [monthly_limit_requests - requests_used >= 1]; with a limit of 100 and
    80 units used, a cost of 30 is refused and (requests remaining) a cost
    of 20 is admitted. *)
Theorem check_quota_iff (w w1 : World) (q : dict) (operation_type : string)
    (pu_cost limit_pu used_pu limit_req used_req : Z) :
  load_quota w = (Ok q, w1) ->
  int_field q "monthly_limit_pu" limit_pu ->
  int_field q "processing_units_used" used_pu ->
  int_field q "monthly_limit_requests" limit_req ->
  int_field q "requests_used" used_req ->
  (exists b, check_quota operation_type pu_cost w = (Ok b, w1) /\
     (b = true <-> pu_cost <= limit_pu - used_pu /\ 1 <= limit_req - used_req))
  /\
  (limit_pu = 100 -> used_pu = 80 ->
     fst (check_quota operation_type 30 w) = Ok false /\
     (1 <= limit_req - used_req ->
        fst (check_quota operation_type 20 w) = Ok true)).
Proof.
  intros Hload Hlp Hup Hlr Hur.
  assert (Hrun : forall c, check_quota operation_type c w =
            (Ok (negb (limit_pu - used_pu <? c)
                 && negb (limit_req - used_req <? 1)), w1)).
  { intros c. rewrite (check_quota_after_load _ _ _ _ _ Hload).
    rewrite (remaining_pu_int q limit_pu used_pu) by done.
    rewrite (remaining_req_int q limit_req used_req) by done.
    reflexivity. }
  split.
  - eexists. split; [apply Hrun|].
    rewrite andb_true_iff, !negb_true_iff, !Z.ltb_ge. reflexivity.
  - intros -> ->. rewrite !Hrun. cbn [fst]. split; [reflexivity|].
    intros Hreq. apply Z.ltb_ge in Hreq. rewrite Hreq. reflexivity.
Qed.

Lemma check_quota_iff_witness :
  let w := w_feb (sample_quota 100 80 "2025-02") in
  (exists b, check_quota "ndvi" 30 w = (Ok b, advance 1 (fs w) w) /\
     (b = true <-> 30 <= 100 - 80 /\ 1 <= 10000 - 0))
  /\
  (100 = 100 -> 80 = 80 ->
     fst (check_quota "ndvi" 30 w) = Ok false /\
     (1 <= 10000 - 0 -> fst (check_quota "ndvi" 20 w) = Ok true)).
Proof.
  apply (check_quota_iff (w_feb (sample_quota 100 80 "2025-02"))
           (advance 1 (Stored (sample_quota 100 80 "2025-02"))
              (w_feb (sample_quota 100 80 "2025-02")))
           (sample_quota 100 80 "2025-02") "ndvi" 30 100 80 10000 0);
    vm_compute; reflexivity.
Defined.

(** ** Commit *)

Lemma iadd_int (q : dict) (key : string) (v n : Z) :
  int_field q key v -> iadd q key n = Ok (<[key := PInt (v + n)]> q).
Proof. unfold iadd, getitem, int_field. by intros ->. Qed.

Lemma update_daily_new_day (today : string) (q : dict) :
  q !! "last_collection_date" <> Some (PStr today) ->
  update_daily today q =
    Ok (<["last_collection_date" := PStr today]>
          (<["collections_today" := PInt 1]> q)).
Proof.
  intros Hne. unfold update_daily. rewrite bool_decide_eq_true_2; [done|].
  unfold get. destruct (q !! "last_collection_date"); congruence.
Qed.

Lemma update_daily_same_day (today : string) (q : dict) (n : Z) :
  q !! "last_collection_date" = Some (PStr today) ->
  int_field q "collections_today" n ->
  update_daily today q = Ok (<["collections_today" := PInt (n + 1)]> q).
Proof.
  intros Heq Hn. unfold update_daily. rewrite bool_decide_eq_false_2.
  - by apply iadd_int.
  - unfold get. rewrite Heq. auto.
Qed.

(** [use_quota] after its load: the two counters, the clock reading for the
    day, the daily counter, the save, and the report line. *)
Lemma use_quota_after_load (operation_type : string) (pu_cost : option Z)
    (w w1 : World) (q qd : dict) (u r : Z) :
  load_quota w = (Ok q, w1) ->
  int_field q "processing_units_used" u ->
  int_field q "requests_used" r ->
  update_daily (today_now w1)
    (<["requests_used" := PInt (r + 1)]>
       (<["processing_units_used" :=
            PInt (u + resolve_cost operation_type pu_cost)]> q)) = Ok qd ->
  use_quota operation_type pu_cost w =
    let qs := <["last_updated" := PStr (isoformat (clock w1 (S (ticks w1))))]>
                qd in
    (val _ <- remaining_pu qs; Ok tt, advance 2 (Stored qs) w1).
Proof.
  intros Hload Hu Hr Hd. unfold use_quota, bind, lift. rewrite Hload.
  rewrite (iadd_int q _ u) by done.
  rewrite (iadd_int _ _ r) by (unfold int_field; by rewrite lookup_insert_ne).
  cbn [now]. unfold today_now, reading in Hd. rewrite Hd.
  cbn. destruct (remaining_pu _); reflexivity.
Qed.

(** One commit: the file is rewritten with the exact new counters, and the
    call returns normally as soon as the limit can be read for the report. *)
Lemma use_quota_effect (operation_type : string) (pu_cost : option Z)
    (w w1 : World) (q : dict) (u r n : Z) :
  load_quota w = (Ok q, w1) ->
  int_field q "processing_units_used" u ->
  int_field q "requests_used" r ->
  (q !! "last_collection_date" = Some (PStr (today_now w1)) ->
   int_field q "collections_today" n) ->
  exists q',
    snd (use_quota operation_type pu_cost w) = advance 2 (Stored q') w1 /\
    committed w1 (resolve_cost operation_type pu_cost) u r n q q' /\
    (forall limit, int_field q "monthly_limit_pu" limit ->
       fst (use_quota operation_type pu_cost w) = Ok tt).
Proof.
  intros Hload Hu Hr Hn.
  set (cost := resolve_cost operation_type pu_cost).
  set (q2 := <["requests_used" := PInt (r + 1)]>
               (<["processing_units_used" := PInt (u + cost)]> q)).
  assert (Hlcd : q2 !! "last_collection_date" = q !! "last_collection_date")
    by (unfold q2; by rewrite !lookup_insert_ne).
  assert (Hct : q2 !! "collections_today" = q !! "collections_today")
    by (unfold q2; by rewrite !lookup_insert_ne).
  destruct (decide (q !! "last_collection_date" = Some (PStr (today_now w1))))
    as [Heq|Hne].
  - pose proof (update_daily_same_day (today_now w1) q2 n) as Hd.
    rewrite Hlcd in Hd. specialize (Hd Heq).
    unfold int_field in Hd at 1. rewrite Hct in Hd. specialize (Hd (Hn Heq)).
    eexists. rewrite (use_quota_after_load _ _ _ _ _ _ _ _ Hload Hu Hr Hd).
    cbn [fst snd]. split; [reflexivity|]. split.
    + unfold committed, int_field, q2. rewrite decide_True by done.
      repeat split; try by simplify_map_eq.
      intros k Hk. rewrite !lookup_insert_ne; [done|notin_keys..].
    + intros limit Hl.
      rewrite (remaining_pu_int _ limit (u + cost)); [done|..];
        unfold int_field, q2; by simplify_map_eq.
  - pose proof (update_daily_new_day (today_now w1) q2) as Hd.
    rewrite Hlcd in Hd. specialize (Hd Hne).
    eexists. rewrite (use_quota_after_load _ _ _ _ _ _ _ _ Hload Hu Hr Hd).
    cbn [fst snd]. split; [reflexivity|]. split.
    + unfold committed, int_field, q2. rewrite decide_False by done.
      repeat split; try by simplify_map_eq.
      intros k Hk. rewrite !lookup_insert_ne; [done|notin_keys..].
    + intros limit Hl.
      rewrite (remaining_pu_int _ limit (u + cost)); [done|..];
        unfold int_field, q2; by simplify_map_eq.
Qed.

(** A commit made in the month of the ledger keeps the ledger and adds to
    its counters. *)
Lemma use_quota_ledger (operation_type : string) (c : Z) (w : World)
    (q : dict) (limit u r : Z) :
  fs w = Stored q -> ledger (month_now w) limit u r q ->
  exists q',
    use_quota operation_type (Some c) w = (Ok tt, advance 3 (Stored q') w) /\
    ledger (month_now w) limit (u + c) (r + 1) q'.
Proof.
  intros Hfs (Hcm & Hl & Hu & Hr & n & Hn).
  assert (Hload : load_quota w = (Ok q, advance 1 (fs w) w)).
  { apply load_quota_same_month; [done|]. unfold stale. tauto. }
  destruct (use_quota_effect operation_type (Some c) w _ q u r n Hload Hu Hr)
    as (q' & Hsnd & Hc & Hfst); [done|].
  exists q'. split.
  - specialize (Hfst limit Hl).
    destruct (use_quota operation_type (Some c) w) as [res w'].
    cbn in Hsnd, Hfst. subst res w'. reflexivity.
  - destruct Hc as (Hu' & Hr' & _ & Hn' & _ & Hsame).
    unfold ledger. repeat split; try done.
    + rewrite Hsame; [done|notin_keys].
    + unfold int_field. rewrite Hsame; [done|notin_keys].
    + eexists. exact Hn'.
Qed.

(** Three commits within one month add up. *)
Lemma commit3_accumulates (k1 k2 k3 : string) (c1 c2 c3 : Z) (w : World)
    (q : dict) (cm : string) (limit u r : Z) :
  fs w = Stored q ->
  (forall n, strftime_Ym (clock w n) = cm) ->
  ledger cm limit u r q ->
  exists q',
    commit3 k1 k2 k3 c1 c2 c3 w = (Ok tt, advance 9 (Stored q') w) /\
    ledger cm limit (u + c1 + c2 + c3) (r + 3) q'.
Proof.
  intros Hfs Hclock Hled. unfold commit3, bind.
  assert (Hm : forall w', clock w' = clock w -> month_now w' = cm).
  { intros w' Hc. unfold month_now, reading. rewrite Hc. apply Hclock. }
  destruct (use_quota_ledger k1 c1 w q limit u r Hfs) as (q1 & -> & H1).
  { by rewrite Hm. }
  rewrite Hm in H1 by done.
  destruct (use_quota_ledger k2 c2 (advance 3 (Stored q1) w) q1 limit
              (u + c1) (r + 1) eq_refl) as (q2 & -> & H2).
  { by rewrite Hm. }
  rewrite Hm in H2 by done.
  destruct (use_quota_ledger k3 c3
              (advance 3 (Stored q2) (advance 3 (Stored q1) w)) q2 limit
              (u + c1 + c2) (r + 1 + 1) eq_refl) as (q3 & -> & H3).
  { by rewrite Hm. }
  rewrite Hm in H3 by done.
  exists q3. split; [reflexivity|].
  by replace (r + 3) with (r + 1 + 1 + 1) by lia.
Qed.

Lemma iadd_inv (q q' : dict) (key : string) (n : Z) :
  iadd q key n = Ok q' ->
  exists v, int_field q key v /\ q' = <[key := PInt (v + n)]> q.
Proof.
  unfold iadd, getitem, int_field.
  destruct (q !! key) as [[v|s|]|]; cbn; try discriminate.
  intros [= <-]. by exists v.
Qed.

Lemma update_daily_same_day_inv (today : string) (q q' : dict) :
  q !! "last_collection_date" = Some (PStr today) ->
  update_daily today q = Ok q' ->
  exists n, int_field q "collections_today" n.
Proof.
  intros Heq. unfold update_daily. rewrite bool_decide_eq_false_2.
  - intros H. apply iadd_inv in H as (v & Hv & _). by exists v.
  - unfold get. rewrite Heq. auto.
Qed.

(** A commit that returned normally did load, found integer counters, and
    saved a quota that is [committed]. *)
Lemma use_quota_inv (operation_type : string) (pu_cost : option Z)
    (w wa : World) :
  use_quota operation_type pu_cost w = (Ok tt, wa) ->
  exists q w1 q' u r n,
    load_quota w = (Ok q, w1) /\
    wa = advance 2 (Stored q') w1 /\
    committed w1 (resolve_cost operation_type pu_cost) u r n q q'.
Proof.
  intros Hrun. destruct (load_quota w) as [[q|e] w1] eqn:Hload.
  2: { unfold use_quota, bind in Hrun. rewrite Hload in Hrun. discriminate. }
  set (cost := resolve_cost operation_type pu_cost) in *.
  assert (exists u r, int_field q "processing_units_used" u /\
            int_field q "requests_used" r /\
            (q !! "last_collection_date" = Some (PStr (today_now w1)) ->
             exists n, int_field q "collections_today" n))
    as (u & r & Hu & Hr & Hn).
  { unfold use_quota, bind, lift in Hrun. rewrite Hload in Hrun.
    fold cost in Hrun.
    destruct (iadd q "processing_units_used" cost) as [q1|] eqn:E1;
      [|discriminate].
    destruct (iadd q1 "requests_used" 1) as [q2|] eqn:E2; [|discriminate].
    apply iadd_inv in E1 as (u & Hu & ->).
    apply iadd_inv in E2 as (r & Hr & ->).
    unfold int_field in Hr. rewrite lookup_insert_ne in Hr by done.
    exists u, r. split; [done|]. split; [done|]. intros Hlcd.
    cbn [now] in Hrun.
    destruct (update_daily _ _) as [qd|] eqn:E3 in Hrun; [|discriminate].
    apply update_daily_same_day_inv in E3 as (n & Hn).
    - exists n. unfold int_field in *.
      by rewrite !lookup_insert_ne in Hn.
    - by rewrite !lookup_insert_ne. }
  destruct (decide (q !! "last_collection_date" = Some (PStr (today_now w1))))
    as [Heq|Hne].
  - destruct (Hn Heq) as (n & Hct).
    destruct (use_quota_effect operation_type pu_cost w w1 q u r n)
      as (q' & Hsnd & Hc & _); try done.
    rewrite Hrun in Hsnd. cbn in Hsnd. by exists q, w1, q', u, r, n.
  - destruct (use_quota_effect operation_type pu_cost w w1 q u r 0)
      as (q' & Hsnd & Hc & _); try done.
    rewrite Hrun in Hsnd. cbn in Hsnd. by exists q, w1, q', u, r, 0.
Qed.

(** A load leaves the fields outside the rollover as they are stored. *)
Lemma load_quota_keeps (w w1 : World) (q0 q : dict) :
  fs w = Stored q0 -> load_quota w = (Ok q, w1) ->
  same_except ["current_month"; "processing_units_used"; "requests_used";
               "collections_today"; "last_updated"] q0 q.
Proof.
  intros Hfs Hload. destruct (stale_dec (month_now w) q0) as [Hs|Hs].
  - rewrite (load_quota_new_month w q0) in Hload by done.
    cbn in Hload. inversion Hload; subst. intros k Hk.
    rewrite stamp_lookup by notin_keys.
    apply reset_month_other. notin_keys.
  - rewrite (load_quota_same_month w q0) in Hload by done.
    inversion Hload; subst. by intros k Hk.
Qed.

Lemma last_commit_day_advance (f : file_state) (w : World) :
  last_commit_day (advance 2 f w) = today_now w.
Proof.
  unfold last_commit_day, commit_reading, today_now, reading, advance. cbn.
  by rewrite Nat.sub_0_r.
Qed.

(** Two commits on different days: the daily counter restarts at 1. *)
Lemma daily_counter_reset (k1 k2 : string) (c1 c2 : option Z)
    (w wa wb : World) :
  use_quota k1 c1 w = (Ok tt, wa) ->
  use_quota k2 c2 wa = (Ok tt, wb) ->
  last_commit_day wa <> last_commit_day wb ->
  exists q, fs wb = Stored q /\
    int_field q "collections_today" 1 /\
    q !! "last_collection_date" = Some (PStr (last_commit_day wb)).
Proof.
  intros H1 H2 Hdays.
  apply use_quota_inv in H1 as (q & w1 & qa & u & r & n & _ & -> & Ha).
  apply use_quota_inv in H2 as (q2 & w3 & qb & u2 & r2 & n2 & Hload & -> & Hb).
  rewrite !last_commit_day_advance in Hdays. rewrite last_commit_day_advance.
  exists qb. split; [reflexivity|].
  destruct Ha as (_ & _ & Hlcd & _).
  destruct Hb as (_ & _ & Hlcd2 & Hct & _).
  assert (Hkeep : q2 !! "last_collection_date" = qa !! "last_collection_date").
  { apply (load_quota_keeps (advance 2 (Stored qa) w1) w3 qa q2);
      [reflexivity|done|notin_keys]. }
  rewrite decide_False in Hct by congruence. done.
Qed.

(** The same, with the days compared as dates. *)
Lemma daily_counter_reset_dates (k1 k2 : string) (c1 c2 : option Z)
    (w wa wb : World) :
  use_quota k1 c1 w = (Ok tt, wa) ->
  use_quota k2 c2 wa = (Ok tt, wb) ->
  valid (commit_reading wa) = true -> valid (commit_reading wb) = true ->
  ~ same_date (commit_reading wa) (commit_reading wb) ->
  exists q, fs wb = Stored q /\
    int_field q "collections_today" 1 /\
    q !! "last_collection_date"
      = Some (PStr (strftime_Ymd (commit_reading wb))).
Proof.
  intros H1 H2 Hva Hvb Hdiff.
  apply (daily_counter_reset k1 k2 c1 c2 w wa wb H1 H2).
  unfold last_commit_day. intros Heq. apply Hdiff.
  by apply strftime_Ymd_inj.
Qed.

(** C2: a commit with the explicit cost [c] adds exactly [c] to
    [processing_units_used] and 1 to [requests_used]; it sets
    [collections_today] to 1 and [last_collection_date] to today when today
    is not the stored date, and adds 1 to [collections_today] otherwise; and
    it writes the result to the file.  Hence commits of 30, 30 and 40 from
    zero counters within one month leave 100 units and 3 requests, and of
    two commits on different days the second leaves [collections_today]
    at 1. *)
Theorem use_quota_commit :
  (forall (operation_type : string) (c : Z) (w w1 : World) (q : dict)
          (u r n : Z),
     load_quota w = (Ok q, w1) ->
     int_field q "processing_units_used" u ->
     int_field q "requests_used" r ->
     (q !! "last_collection_date" = Some (PStr (today_now w1)) ->
      int_field q "collections_today" n) ->
     exists q',
       snd (use_quota operation_type (Some c) w) = advance 2 (Stored q') w1 /\
       committed w1 c u r n q q' /\
       (forall limit, int_field q "monthly_limit_pu" limit ->
          fst (use_quota operation_type (Some c) w) = Ok tt))
  /\
  (forall (k1 k2 k3 : string) (w : World) (q : dict) (cm : string)
          (limit : Z),
     fs w = Stored q ->
     (forall n, strftime_Ym (clock w n) = cm) ->
     ledger cm limit 0 0 q ->
     exists q',
       commit3 k1 k2 k3 30 30 40 w = (Ok tt, advance 9 (Stored q') w) /\
       int_field q' "processing_units_used" 100 /\
       int_field q' "requests_used" 3)
  /\
  (forall (k1 k2 : string) (c1 c2 : option Z) (w wa wb : World),
     use_quota k1 c1 w = (Ok tt, wa) ->
     use_quota k2 c2 wa = (Ok tt, wb) ->
     last_commit_day wa <> last_commit_day wb ->
     exists q, fs wb = Stored q /\
       int_field q "collections_today" 1 /\
       q !! "last_collection_date" = Some (PStr (last_commit_day wb)))
  /\
  (forall (k1 k2 : string) (c1 c2 : option Z) (w wa wb : World),
     use_quota k1 c1 w = (Ok tt, wa) ->
     use_quota k2 c2 wa = (Ok tt, wb) ->
     valid (commit_reading wa) = true -> valid (commit_reading wb) = true ->
     ~ same_date (commit_reading wa) (commit_reading wb) ->
     exists q, fs wb = Stored q /\
       int_field q "collections_today" 1 /\
       q !! "last_collection_date"
         = Some (PStr (strftime_Ymd (commit_reading wb)))).
Proof.
  split; [|split; [|split]]; [| | |apply daily_counter_reset_dates].
  - intros. by eapply (use_quota_effect operation_type (Some c)).
  - intros k1 k2 k3 w q cm limit Hfs Hclock Hled.
    destruct (commit3_accumulates k1 k2 k3 30 30 40 w q cm limit 0 0)
      as (q' & Hrun & Hl); try done.
    exists q'. split; [done|]. unfold ledger in Hl. tauto.
  - apply daily_counter_reset.
Qed.

Lemma use_quota_commit_witness :
  let q := sample_quota 10000 0 "2025-02" in
  (exists q',
     snd (use_quota "ndvi" (Some 30) (w_day q 10))
       = advance 2 (Stored q') (advance 1 (Stored q) (w_day q 10)) /\
     committed (advance 1 (Stored q) (w_day q 10)) 30 0 0 0 q q' /\
     (forall limit, int_field q "monthly_limit_pu" limit ->
        fst (use_quota "ndvi" (Some 30) (w_day q 10)) = Ok tt))
  /\
  (exists q',
     commit3 "ndvi" "ndwi" "zonal_stats" 30 30 40 (w_day q 10)
       = (Ok tt, advance 9 (Stored q') (w_day q 10)) /\
     int_field q' "processing_units_used" 100 /\
     int_field q' "requests_used" 3)
  /\
  (exists q', fs (snd (use_quota "ndvi" None
                         (snd (use_quota "ndvi" None (w_two_days q 10)))))
                = Stored q' /\
     int_field q' "collections_today" 1 /\
     q' !! "last_collection_date" = Some (PStr "2025-02-11")).
Proof.
  destruct use_quota_commit as (Hone & Hthree & _ & Htwo).
  split; [|split].
  - apply (Hone "ndvi" 30 (w_day (sample_quota 10000 0 "2025-02") 10));
      [reflexivity|reflexivity|reflexivity|discriminate].
  - apply (Hthree "ndvi" "ndwi" "zonal_stats"
             (w_day (sample_quota 10000 0 "2025-02") 10)
             (sample_quota 10000 0 "2025-02") "2025-02" 10000).
    + reflexivity.
    + intros n. reflexivity.
    + unfold ledger. repeat split; try reflexivity. exists 0. reflexivity.
  - apply (Htwo "ndvi" "ndvi" None None
             (w_two_days (sample_quota 10000 0 "2025-02") 10)
             (snd (use_quota "ndvi" None
                     (w_two_days (sample_quota 10000 0 "2025-02") 10)))
             (snd (use_quota "ndvi" None
                     (snd (use_quota "ndvi" None
                        (w_two_days (sample_quota 10000 0 "2025-02") 10)))))).
    + vm_compute. reflexivity.
    + vm_compute. reflexivity.
    + reflexivity.
    + reflexivity.
    + unfold same_date. cbn. intros (_ & _ & H). discriminate.
Defined.

(** C4: a commit records the true usage whatever the limits are: the saved
    [processing_units_used] is the old value plus the cost and the saved
    [requests_used] the old value plus 1, also when that is above
    [monthly_limit_pu] or [monthly_limit_requests]; the commit is not
    refused and the limits are left as they are. *)
Theorem use_quota_records_overage (operation_type : string)
    (pu_cost : option Z) (w w1 : World) (q : dict)
    (u r n limit_pu limit_req : Z) :
  load_quota w = (Ok q, w1) ->
  int_field q "processing_units_used" u ->
  int_field q "requests_used" r ->
  int_field q "monthly_limit_pu" limit_pu ->
  int_field q "monthly_limit_requests" limit_req ->
  (q !! "last_collection_date" = Some (PStr (today_now w1)) ->
   int_field q "collections_today" n) ->
  let cost := resolve_cost operation_type pu_cost in
  exists q',
    use_quota operation_type pu_cost w = (Ok tt, advance 2 (Stored q') w1) /\
    int_field q' "processing_units_used" (u + cost) /\
    int_field q' "requests_used" (r + 1) /\
    int_field q' "monthly_limit_pu" limit_pu /\
    int_field q' "monthly_limit_requests" limit_req /\
    (limit_pu < u + cost ->
       exists used, int_field q' "processing_units_used" used /\
                    limit_pu < used) /\
    (limit_req < r + 1 ->
       exists used, int_field q' "requests_used" used /\ limit_req < used).
Proof.
  intros Hload Hu Hr Hlp Hlr Hn cost.
  destruct (use_quota_effect operation_type pu_cost w w1 q u r n)
    as (q' & Hsnd & Hc & Hfst); try done.
  specialize (Hfst limit_pu Hlp). fold cost in Hc.
  destruct Hc as (Hu' & Hr' & _ & _ & _ & Hsame).
  exists q'. split.
  { destruct (use_quota operation_type pu_cost w) as [res w'].
    cbn in Hsnd, Hfst. by subst. }
  split; [done|]. split; [done|].
  assert (Hlp' : int_field q' "monthly_limit_pu" limit_pu).
  { unfold int_field. rewrite Hsame; [done|notin_keys]. }
  assert (Hlr' : int_field q' "monthly_limit_requests" limit_req).
  { unfold int_field. rewrite Hsame; [done|notin_keys]. }
  split; [done|]. split; [done|]. split; intros Hover; eauto.
Qed.

Lemma use_quota_records_overage_witness :
  let q := sample_quota 100 80 "2025-02" in
  exists q',
    use_quota "map_rgb" None (w_feb q)
      = (Ok tt, advance 2 (Stored q') (advance 1 (Stored q) (w_feb q))) /\
    int_field q' "processing_units_used" (80 + 50) /\
    int_field q' "requests_used" (0 + 1) /\
    int_field q' "monthly_limit_pu" 100 /\
    int_field q' "monthly_limit_requests" 10000 /\
    (100 < 80 + 50 ->
       exists used, int_field q' "processing_units_used" used /\ 100 < used) /\
    (10000 < 0 + 1 ->
       exists used, int_field q' "requests_used" used /\ 10000 < used).
Proof.
  apply (use_quota_records_overage "map_rgb" None
           (w_feb (sample_quota 100 80 "2025-02"))
           (advance 1 (Stored (sample_quota 100 80 "2025-02"))
              (w_feb (sample_quota 100 80 "2025-02")))
           (sample_quota 100 80 "2025-02") 80 0 0 100 10000);
    reflexivity.
Defined.

(** C10: for an operation kind that is not in [PU_COSTS] (such as
    ["collection"] or ["general"]), a commit without an explicit cost is
    the commit with cost 30: it adds 30 to [processing_units_used]. *)
Theorem use_quota_default_cost (operation_type : string) (w w1 : World)
    (q : dict) (u r n : Z) :
  PU_COSTS !! operation_type = None ->
  load_quota w = (Ok q, w1) ->
  int_field q "processing_units_used" u ->
  int_field q "requests_used" r ->
  (q !! "last_collection_date" = Some (PStr (today_now w1)) ->
   int_field q "collections_today" n) ->
  resolve_cost operation_type None = 30 /\
  use_quota operation_type None w = use_quota operation_type (Some 30) w /\
  (exists q',
     snd (use_quota operation_type None w) = advance 2 (Stored q') w1 /\
     int_field q' "processing_units_used" (u + 30)) /\
  PU_COSTS !! "collection" = None /\ PU_COSTS !! "general" = None.
Proof.
  intros Hnone Hload Hu Hr Hn.
  assert (Hcost : resolve_cost operation_type None = 30).
  { unfold resolve_cost. by rewrite Hnone. }
  split; [done|]. split.
  { unfold use_quota. by rewrite Hcost. }
  split; [|split; reflexivity].
  destruct (use_quota_effect operation_type None w w1 q u r n)
    as (q' & Hsnd & Hc & _); try done.
  rewrite Hcost in Hc. exists q'. split; [done|]. apply Hc.
Qed.

Lemma use_quota_default_cost_witness :
  let q := sample_quota 10000 120 "2025-02" in
  resolve_cost "collection" None = 30 /\
  use_quota "collection" None (w_feb q)
    = use_quota "collection" (Some 30) (w_feb q) /\
  (exists q',
     snd (use_quota "collection" None (w_feb q))
       = advance 2 (Stored q') (advance 1 (Stored q) (w_feb q)) /\
     int_field q' "processing_units_used" (120 + 30)) /\
  PU_COSTS !! "collection" = None /\ PU_COSTS !! "general" = None.
Proof.
  apply (use_quota_default_cost "collection"
           (w_feb (sample_quota 10000 120 "2025-02"))
           (advance 1 (Stored (sample_quota 10000 120 "2025-02"))
              (w_feb (sample_quota 10000 120 "2025-02")))
           (sample_quota 10000 120 "2025-02") 120 0 0);
    reflexivity.
Defined.

(** ** What the check and the status view write *)

Lemma check_quota_world (operation_type : string) (pu_cost : Z) (w : World) :
  snd (check_quota operation_type pu_cost w) = snd (load_quota w).
Proof.
  unfold check_quota, bind, lift.
  destruct (load_quota w) as [[q|e] w1]; [|reflexivity].
  destruct (remaining_pu q) as [rp|e]; [|reflexivity].
  destruct (remaining_req q) as [rr|e]; [|reflexivity]. cbn.
  destruct (rp <? pu_cost); [reflexivity|].
  destruct (rr <? 1); reflexivity.
Qed.

Lemma get_quota_status_file (w : World) :
  fs (snd (get_quota_status w)) = fs (snd (load_quota w)).
Proof.
  unfold get_quota_status, bind, lift, now.
  destruct (load_quota w) as [[q|e] w1]; [|reflexivity].
  destruct (remaining_pu q) as [rp|e]; [|reflexivity].
  destruct (remaining_req q) as [rr|e]; [|reflexivity].
  destruct (percent_used q) as [p|e]; [|reflexivity].
  destruct (days_remaining_in_month _) as [d|e]; [|reflexivity].
  destruct (safe_daily_pu rp d) as [s|e]; [|reflexivity].
  destruct (getitem q "processing_units_used"); [|reflexivity].
  destruct (getitem q "monthly_limit_pu"); [|reflexivity].
  destruct (getitem q "requests_used"); reflexivity.
Qed.

(** C9: the admission check does not look at the operation kind: two
    checks with the same cost in the same world return the same, whatever
    their kinds; and checks in two worlds whose loads return quotas with
    the same limits and counters return the same boolean. *)
Theorem check_quota_ignores_kind :
  (forall (k1 k2 : string) (c : Z) (w : World),
     check_quota k1 c w = check_quota k2 c w)
  /\
  (forall (k1 k2 : string) (c : Z) (w w' w1 w1' : World) (q q' : dict),
     load_quota w = (Ok q, w1) ->
     load_quota w' = (Ok q', w1') ->
     (forall key, key ∈ ["monthly_limit_pu"; "processing_units_used";
                         "monthly_limit_requests"; "requests_used"] ->
        q !! key = q' !! key) ->
     fst (check_quota k1 c w) = fst (check_quota k2 c w')).
Proof.
  split; [reflexivity|].
  intros k1 k2 c w w' w1 w1' q q' Hl Hl' Hsame.
  rewrite (check_quota_after_load k1 c w w1 q Hl).
  rewrite (check_quota_after_load k2 c w' w1' q' Hl').
  unfold remaining_pu, remaining_req, getitem.
  rewrite !Hsame; [reflexivity|..]; rewrite !elem_of_cons; auto 10.
Qed.

Lemma check_quota_ignores_kind_witness :
  check_quota "map_rgb" 50 w_stale = check_quota "collection" 50 w_stale /\
  fst (check_quota "ndvi" 30 (w_feb (sample_quota 100 80 "2025-02")))
  = fst (check_quota "general" 30 (w_day (sample_quota 100 80 "2025-02") 3)).
Proof.
  destruct check_quota_ignores_kind as [Hsame Hfields]. split.
  - apply Hsame.
  - apply (Hfields "ndvi" "general" 30
             (w_feb (sample_quota 100 80 "2025-02"))
             (w_day (sample_quota 100 80 "2025-02") 3)
             (advance 1 (Stored (sample_quota 100 80 "2025-02"))
                (w_feb (sample_quota 100 80 "2025-02")))
             (advance 1 (Stored (sample_quota 100 80 "2025-02"))
                (w_day (sample_quota 100 80 "2025-02") 3))
             (sample_quota 100 80 "2025-02") (sample_quota 100 80 "2025-02"));
      reflexivity.
Defined.

(** C7, as the spec states it, fails: a check with no quota file creates
    the file, and a check or a status view of a file from an earlier month
    rewrites it with zero counters. *)
Lemma check_quota_writes_counterexample :
  fs (snd (check_quota "general" 50 w_empty)) <> fs w_empty /\
  fs (snd (check_quota "general" 50 w_stale)) <> fs w_stale /\
  fs (snd (get_quota_status w_stale)) <> fs w_stale.
Proof.
  split; [|split].
  - vm_compute. discriminate.
  - intros H.
    apply (f_equal (fun f => stored_field f "processing_units_used")) in H.
    vm_compute in H. discriminate.
  - intros H.
    apply (f_equal (fun f => stored_field f "processing_units_used")) in H.
    vm_compute in H. discriminate.
Qed.

(** The default quota, as it is in the file: the ten fields and nothing
    else. *)
Lemma default_quota_is_default (t1 t2 : datetime) (stampv : string) :
  is_default (strftime_Ym t1) stampv
    (<["last_updated" := PStr stampv]> (default_quota t1 t2)).
Proof.
  unfold is_default, int_field, default_quota.
  repeat (split; [by simplify_map_eq|]).
  intros k Hk. rewrite !not_elem_of_cons in Hk.
  rewrite lookup_insert_ne by intuition congruence.
  apply not_elem_of_list_to_map_1. cbn. rewrite !not_elem_of_cons.
  tauto.
Qed.

(** The quota a rollover writes. *)
Lemma reset_month_is_rollover (cm stampv : string) (q0 : dict) :
  is_rollover cm stampv q0
    (<["last_updated" := PStr stampv]> (reset_month cm q0)).
Proof.
  pose proof (reset_month_fields cm q0) as (Hcm & Hu & Hr & Hn).
  unfold is_rollover. split; [|split; [|split]].
  - apply stamp_zeroed. by unfold zeroed.
  - by rewrite stamp_lookup.
  - by rewrite lookup_insert_eq.
  - intros k Hk. rewrite !not_elem_of_cons in Hk.
    rewrite stamp_lookup by tauto.
    apply reset_month_other. rewrite !not_elem_of_cons. tauto.
Qed.

(** C7, amended: the check and the status view write the file only through
    the load they start with.  When the file holds a quota of the current
    month they leave it as it is.  When there is no file they create it
    with the default quota (limits 10000 and 10000, zero counters, daily
    budgets 300 and 300, the current month, no collection date, the stamp
    of the save).  When the file holds a quota of another month they
    rewrite it with the rollover reset: the three counters zero, the
    current month, a new stamp, every other field as it was.  A file that
    cannot be read is left as it is. *)
Theorem check_and_status_frame (w : World) (operation_type : string)
    (pu_cost : Z) :
  let after_check := fs (snd (check_quota operation_type pu_cost w)) in
  let after_status := fs (snd (get_quota_status w)) in
  (forall q, fs w = Stored q -> ~ stale (month_now w) q ->
     after_check = fs w /\ after_status = fs w)
  /\
  (fs w = NoFile ->
     exists q', after_check = Stored q' /\ after_status = Stored q' /\
       is_default (month_now w)
         (isoformat (clock w (2 + ticks w)%nat)) q')
  /\
  (forall q, fs w = Stored q -> stale (month_now w) q ->
     exists q', after_check = Stored q' /\ after_status = Stored q' /\
       is_rollover (month_now w)
         (isoformat (clock w (S (ticks w)))) q q')
  /\
  (fs w = Corrupt -> after_check = fs w /\ after_status = fs w).
Proof.
  cbv zeta. rewrite check_quota_world, get_quota_status_file.
  split; [|split; [|split]].
  - intros q Hfs Hcur. by rewrite (load_quota_same_month w q Hfs Hcur).
  - intros Hfs. rewrite (load_quota_no_file w Hfs). cbn [snd advance fs].
    eexists. split; [reflexivity|]. split; [reflexivity|].
    apply default_quota_is_default.
  - intros q Hfs Hst. rewrite (load_quota_new_month w q Hfs Hst).
    cbn [snd advance fs].
    eexists. split; [reflexivity|]. split; [reflexivity|].
    apply reset_month_is_rollover.
  - intros Hfs. by rewrite (load_quota_corrupt w Hfs).
Qed.

Lemma check_and_status_frame_witness :
  (let w := w_feb (sample_quota 100 80 "2025-02") in
   fs (snd (check_quota "ndvi" 30 w)) = fs w /\
   fs (snd (get_quota_status w)) = fs w)
  /\
  (exists q',
     fs (snd (check_quota "ndvi" 30 w_empty)) = Stored q' /\
     fs (snd (get_quota_status w_empty)) = Stored q' /\
     is_default "2025-02" "2025-02-10T12:00:00" q')
  /\
  (exists q',
     fs (snd (check_quota "ndvi" 30 w_stale)) = Stored q' /\
     fs (snd (get_quota_status w_stale)) = Stored q' /\
     is_rollover "2025-02" "2025-02-10T12:00:00"
       (sample_quota 10000 9000 "2025-01") q').
Proof.
  split; [|split].
  - apply (check_and_status_frame (w_feb (sample_quota 100 80 "2025-02"))
             "ndvi" 30) with (q := sample_quota 100 80 "2025-02").
    + reflexivity.
    + unfold stale. intros H. apply H. reflexivity.
  - apply (check_and_status_frame w_empty "ndvi" 30). reflexivity.
  - apply (check_and_status_frame w_stale "ndvi" 30).
    + reflexivity.
    + unfold stale. vm_compute. discriminate.
Defined.

(** ** The status view and the safe daily budget *)

Lemma safe_daily_pu_total (rem_pu days_remaining : Z) :
  safe_daily_pu rem_pu days_remaining =
    Ok (if 0 <? days_remaining then rem_pu / Z.max days_remaining 1 else 0).
Proof.
  unfold safe_daily_pu, py_floordiv.
  destruct (Z.ltb_spec 0 days_remaining) as [Hd|Hd]; [|reflexivity].
  destruct (Z.eqb_spec (Z.max days_remaining 1) 0) as [E|E]; [lia|reflexivity].
Qed.

(** A status that was returned was computed from the loaded quota and the
    clock reading that follows the load. *)
Lemma get_quota_status_inv (w w' : World) (s : status) :
  get_quota_status w = (Ok s, w') ->
  exists q w1,
    load_quota w = (Ok q, w1) /\
    w' = advance 1 (fs w1) w1 /\
    remaining_pu q = Ok (st_pu_remaining s) /\
    days_remaining_in_month (reading w1) = Ok (st_days_remaining s) /\
    safe_daily_pu (st_pu_remaining s) (st_days_remaining s)
      = Ok (st_safe_daily_pu s).
Proof.
  unfold get_quota_status, bind, lift, now, reading.
  destruct (load_quota w) as [[q|e] w1]; [|discriminate].
  destruct (remaining_pu q) as [rp|e] eqn:Erp; [|discriminate].
  destruct (remaining_req q) as [rr|e]; [|discriminate].
  destruct (percent_used q) as [p|e]; [|discriminate].
  destruct (days_remaining_in_month _) as [d|e] eqn:Ed; [|discriminate].
  destruct (safe_daily_pu rp d) as [sf|e] eqn:Es; [|discriminate].
  destruct (getitem q "processing_units_used"); [|discriminate].
  destruct (getitem q "monthly_limit_pu"); [|discriminate].
  destruct (getitem q "requests_used"); [|discriminate].
  cbn. intros [= <- <-]. exists q, w1. cbn. repeat split; done.
Qed.

(** The status view returns whenever the loaded quota has integer limits
    and counters, the limit is not zero (it divides in the percentage) and
    the next month exists. *)
Lemma get_quota_status_returns (w w1 : World) (q : dict)
    (limit_pu used_pu limit_req used_req : Z) :
  load_quota w = (Ok q, w1) ->
  int_field q "monthly_limit_pu" limit_pu ->
  int_field q "processing_units_used" used_pu ->
  int_field q "monthly_limit_requests" limit_req ->
  int_field q "requests_used" used_req ->
  limit_pu <> 0 ->
  valid (reading w1) = true -> ~ last_december (reading w1) ->
  exists s, get_quota_status w = (Ok s, advance 1 (fs w1) w1) /\
    st_pu_remaining s = limit_pu - used_pu /\
    st_days_remaining s
      = whole_days (reading w1) (first_of_next_month (reading w1)).
Proof.
  intros Hload Hlp Hup Hlr Hur Hnz Hv Hlast.
  destruct (days_remaining_in_month_run _ Hv Hlast) as [Hrun _].
  rewrite sub_days_floor in Hrun.
  unfold get_quota_status, bind, lift, now. rewrite Hload.
  rewrite (remaining_pu_int q limit_pu used_pu) by done.
  rewrite (remaining_req_int q limit_req used_req) by done.
  unfold percent_used, py_truediv, getitem.
  unfold int_field in *. rewrite Hlp, Hup, Hur. cbn.
  destruct (Z.eqb_spec limit_pu 0) as [E|E]; [done|]. cbn.
  unfold reading in Hrun. rewrite Hrun. cbn.
  rewrite safe_daily_pu_total. cbn. eexists. split; [reflexivity|]. done.
Qed.

(** C5: the safe daily budget is [floor(remaining_pu / max(days, 1))] when
    the days remaining in the month are positive and 0 when they are 0; the
    divisor is never zero, so the computation never raises.  With 3000
    units and 10 days it is 300.  In the status view the budget is this
    function of the remaining units of the loaded quota and of the days
    remaining at the clock reading, and the view returns whenever the
    loaded quota has integer limits and counters, its limit is not zero
    and the next month exists. *)
Theorem safe_daily_pu_budget :
  (forall rem_pu days_remaining : Z,
     safe_daily_pu rem_pu days_remaining =
       Ok (if 0 <? days_remaining
           then rem_pu / Z.max days_remaining 1 else 0) /\
     (0 < days_remaining ->
        Z.max days_remaining 1 <> 0 /\
        exists v, safe_daily_pu rem_pu days_remaining = Ok v /\
          Z.max days_remaining 1 * v <= rem_pu
            < Z.max days_remaining 1 * (v + 1)))
  /\
  (forall rem_pu : Z, safe_daily_pu rem_pu 0 = Ok 0)
  /\
  safe_daily_pu 3000 10 = Ok 300
  /\
  (forall (w w' : World) (s : status),
     get_quota_status w = (Ok s, w') ->
     exists q w1,
       load_quota w = (Ok q, w1) /\
       remaining_pu q = Ok (st_pu_remaining s) /\
       days_remaining_in_month (reading w1) = Ok (st_days_remaining s) /\
       safe_daily_pu (st_pu_remaining s) (st_days_remaining s)
         = Ok (st_safe_daily_pu s))
  /\
  (forall (w w1 : World) (q : dict) (limit_pu used_pu limit_req used_req : Z),
     load_quota w = (Ok q, w1) ->
     int_field q "monthly_limit_pu" limit_pu ->
     int_field q "processing_units_used" used_pu ->
     int_field q "monthly_limit_requests" limit_req ->
     int_field q "requests_used" used_req ->
     limit_pu <> 0 ->
     valid (reading w1) = true -> ~ last_december (reading w1) ->
     exists s, get_quota_status w = (Ok s, advance 1 (fs w1) w1) /\
       st_pu_remaining s = limit_pu - used_pu /\
       st_days_remaining s
         = whole_days (reading w1) (first_of_next_month (reading w1))).
Proof.
  split; [|split; [|split; [|split]]].
  - intros r d. split; [apply safe_daily_pu_total|].
    intros Hd. split; [lia|]. rewrite safe_daily_pu_total.
    apply Z.ltb_lt in Hd as Hd'. rewrite Hd'. eexists. split; [reflexivity|].
    pose proof (Z.mul_div_le r (Z.max d 1)).
    pose proof (Z.mul_succ_div_gt r (Z.max d 1)). lia.
  - intros r. apply safe_daily_pu_total.
  - reflexivity.
  - intros w w' s Hs.
    apply get_quota_status_inv in Hs as (q & w1 & H1 & _ & H2 & H3 & H4).
    by exists q, w1.
  - apply get_quota_status_returns.
Qed.

Lemma safe_daily_pu_budget_witness :
  (exists v, safe_daily_pu 3000 10 = Ok v /\ 10 * v <= 3000 < 10 * (v + 1)) /\
  (exists s, fst (get_quota_status w_ten_days) = Ok s /\
     st_pu_remaining s = 3000 /\ st_days_remaining s = 10 /\
     safe_daily_pu 3000 10 = Ok (st_safe_daily_pu s) /\
     st_safe_daily_pu s = 300).
Proof.
  destruct safe_daily_pu_budget as (Hfloor & _ & Hex & Hview & Hret).
  split.
  - destruct (Hfloor 3000 10) as [_ H]. destruct H as [_ H]; [lia|]. exact H.
  - destruct (Hret w_ten_days
                (advance 1 (Stored (sample_quota 10000 7000 "2025-02"))
                   w_ten_days)
                (sample_quota 10000 7000 "2025-02") 10000 7000 10000 0)
      as (s & Hs & Hrem & Hdays);
      [reflexivity|reflexivity|reflexivity|reflexivity|reflexivity|lia
      |reflexivity| |].
    { unfold last_december. cbn. intros [H _]. discriminate. }
    destruct (Hview _ _ _ Hs) as (q & w1 & _ & _ & _ & Hsafe).
    exists s. rewrite Hs. split; [reflexivity|].
    assert (Hd : st_days_remaining s = 10) by (rewrite Hdays; reflexivity).
    assert (Hr : st_pu_remaining s = 3000) by (rewrite Hrem; reflexivity).
    rewrite Hd, Hr in Hsafe. rewrite Hsafe.
    split; [done|]. split; [done|]. split; [reflexivity|].
    rewrite Hex in Hsafe. by injection Hsafe.
Defined.

(** With a limit of zero the status view stops at the percentage, before
    the budget is computed. *)
Example status_zero_limit :
  fst (get_quota_status w_zero_limit) = Raise ZeroDivisionError.
Proof. reflexivity. Qed.

Example status_ten_days :
  (val s <- fst (get_quota_status w_ten_days);
   Ok (st_pu_remaining s, st_days_remaining s, st_safe_daily_pu s))
  = Ok (3000, 10, 300).
Proof. reflexivity. Qed.

(** * Further properties of the ledger *)

(** ** Loading twice, saving and loading *)

(** X1: a load that follows a load, with the clock still in the same month,
    returns the same quota and leaves the file as it is. *)
Theorem load_quota_idempotent (w w1 w2 : World) (q : dict) :
  load_quota w = (Ok q, w1) ->
  fs w2 = fs w1 -> month_now w2 = month_now w ->
  load_quota w2 = (Ok q, advance 1 (fs w2) w2) /\ fs w2 = Stored q.
Proof.
  intros Hload Hfs Hm.
  assert (Hfs0 : fs w <> Corrupt).
  { intros E. rewrite (load_quota_corrupt w E) in Hload. discriminate. }
  destruct (load_quota_returns w Hfs0) as (q' & w' & Hl & Hcm & Hst & _).
  rewrite Hload in Hl. inversion Hl; subst q' w'.
  assert (Hfs2 : fs w2 = Stored q) by congruence.
  split; [|done]. apply load_quota_same_month; [done|].
  unfold stale. rewrite Hm. tauto.
Qed.

Lemma load_quota_idempotent_witness :
  let w1 := snd (load_quota w_stale) in
  exists q, load_quota w1 = (Ok q, advance 1 (fs w1) w1) /\ fs w1 = Stored q.
Proof.
  exists (returned (fst (load_quota w_stale))).
  apply (load_quota_idempotent w_stale (snd (load_quota w_stale))
           (snd (load_quota w_stale))
           (returned (fst (load_quota w_stale))));
    vm_compute; reflexivity.
Defined.

(** X2: what [save_quota] writes is what a load in the month of the quota
    reads back: the saved quota with its new stamp, every other field as
    it was given. *)
Theorem save_then_load (quota : dict) (w : World) :
  let w1 := snd (save_quota quota w) in
  ~ stale (month_now w1) quota ->
  exists q, load_quota w1 = (Ok q, advance 1 (fs w1) w1) /\
    fst (save_quota quota w) = Ok q /\
    q !! "last_updated" = Some (PStr (isoformat (reading w))) /\
    same_except ["last_updated"] quota q.
Proof.
  intros w1 Hcur. subst w1. rewrite save_quota_run in *. cbn [fst snd] in *.
  set (q := <["last_updated" := PStr (isoformat (reading w))]> quota) in *.
  exists q. split; [|split; [done|split]].
  - apply load_quota_same_month; [reflexivity|].
    unfold stale in *. unfold q. by rewrite stamp_lookup.
  - unfold q. by rewrite lookup_insert_eq.
  - intros k Hk. apply stamp_lookup. notin_keys.
Qed.

Lemma save_then_load_witness :
  let quota := sample_quota 10000 120 "2025-02" in
  let w1 := snd (save_quota quota w_empty) in
  exists q, load_quota w1 = (Ok q, advance 1 (fs w1) w1) /\
    fst (save_quota quota w_empty) = Ok q /\
    q !! "last_updated" = Some (PStr (isoformat (reading w_empty))) /\
    same_except ["last_updated"] quota q.
Proof.
  apply (save_then_load (sample_quota 10000 120 "2025-02") w_empty).
  unfold stale. intros H. apply H. reflexivity.
Defined.

(** ** Errors *)

(** X3: when the file is not a JSON document, the check, the commit and
    the status view all raise the decoding error and leave the file and
    the clock as they found them: there is no fall-back to a fresh quota. *)
Theorem unreadable_file_raises (w : World) (operation_type : string)
    (pu_cost : Z) (cost : option Z) :
  fs w = Corrupt ->
  check_quota operation_type pu_cost w = (Raise JSONDecodeError, w) /\
  use_quota operation_type cost w = (Raise JSONDecodeError, w) /\
  get_quota_status w = (Raise JSONDecodeError, w).
Proof.
  intros Hfs. pose proof (load_quota_corrupt w Hfs) as Hload.
  unfold check_quota, use_quota, get_quota_status, bind.
  rewrite Hload. done.
Qed.

Lemma unreadable_file_raises_witness :
  check_quota "ndvi" 30 w_corrupt = (Raise JSONDecodeError, w_corrupt) /\
  use_quota "ndvi" None w_corrupt = (Raise JSONDecodeError, w_corrupt) /\
  get_quota_status w_corrupt = (Raise JSONDecodeError, w_corrupt).
Proof. apply (unreadable_file_raises w_corrupt "ndvi" 30 None). reflexivity. Defined.

(** The outcome of a commit whose counters are integers: it is decided by
    the report line, which reads the limit after the save. *)
Lemma use_quota_outcome (operation_type : string) (pu_cost : option Z)
    (w w1 : World) (q : dict) (u r n : Z) :
  load_quota w = (Ok q, w1) ->
  int_field q "processing_units_used" u ->
  int_field q "requests_used" r ->
  (q !! "last_collection_date" = Some (PStr (today_now w1)) ->
   int_field q "collections_today" n) ->
  fst (use_quota operation_type pu_cost w)
  = (val limit <- getitem q "monthly_limit_pu";
     val _ <- py_sub limit
                (PInt (u + resolve_cost operation_type pu_cost));
     Ok tt).
Proof.
  intros Hload Hu Hr Hn.
  set (cost := resolve_cost operation_type pu_cost).
  set (q2 := <["requests_used" := PInt (r + 1)]>
               (<["processing_units_used" := PInt (u + cost)]> q)).
  assert (Hd : exists qd, update_daily (today_now w1) q2 = Ok qd /\
             qd !! "monthly_limit_pu" = q !! "monthly_limit_pu" /\
             qd !! "processing_units_used" = Some (PInt (u + cost))).
  { destruct (decide (q !! "last_collection_date"
                      = Some (PStr (today_now w1)))) as [Heq|Hne].
    - eexists. split.
      + apply (update_daily_same_day _ _ n).
        * unfold q2. by rewrite !lookup_insert_ne.
        * unfold int_field, q2. rewrite !lookup_insert_ne by done.
          by apply Hn.
      + unfold q2. by simplify_map_eq.
    - eexists. split.
      + apply update_daily_new_day. unfold q2. by rewrite !lookup_insert_ne.
      + unfold q2. by simplify_map_eq. }
  destruct Hd as (qd & Hd & Hlim & Hused).
  rewrite (use_quota_after_load _ _ _ _ _ _ _ _ Hload Hu Hr Hd).
  cbn [fst]. unfold remaining_pu, getitem.
  rewrite !stamp_lookup by done. rewrite Hlim, Hused.
  destruct (q !! "monthly_limit_pu") as [v|]; [|reflexivity]. cbn.
  destruct (py_sub v _); reflexivity.
Qed.

(** X4: on a quota that has its counters but no [monthly_limit_pu], a
    commit first saves the new counters and then raises [KeyError]: the
    caller sees a failure although the usage was charged. *)
Theorem use_quota_charges_then_raises (operation_type : string)
    (pu_cost : option Z) (w w1 : World) (q : dict) (u r n : Z) :
  load_quota w = (Ok q, w1) ->
  int_field q "processing_units_used" u ->
  int_field q "requests_used" r ->
  (q !! "last_collection_date" = Some (PStr (today_now w1)) ->
   int_field q "collections_today" n) ->
  q !! "monthly_limit_pu" = None ->
  exists q',
    use_quota operation_type pu_cost w
      = (Raise (KeyError "monthly_limit_pu"), advance 2 (Stored q') w1) /\
    int_field q' "processing_units_used"
      (u + resolve_cost operation_type pu_cost) /\
    int_field q' "requests_used" (r + 1).
Proof.
  intros Hload Hu Hr Hn Hnone.
  destruct (use_quota_effect operation_type pu_cost w w1 q u r n)
    as (q' & Hsnd & Hc & _); try done.
  pose proof (use_quota_outcome operation_type pu_cost w w1 q u r n
                Hload Hu Hr Hn) as Hfst.
  unfold getitem in Hfst. rewrite Hnone in Hfst. cbn in Hfst.
  exists q'. split; [|split; apply Hc].
  destruct (use_quota operation_type pu_cost w) as [res w'].
  cbn in Hsnd, Hfst. by subst.
Qed.

Lemma use_quota_charges_then_raises_witness :
  exists q',
    use_quota "ndvi" None (w_feb quota_no_limit)
      = (Raise (KeyError "monthly_limit_pu"),
         advance 2 (Stored q')
           (advance 1 (Stored quota_no_limit) (w_feb quota_no_limit))) /\
    int_field q' "processing_units_used" (80 + resolve_cost "ndvi" None) /\
    int_field q' "requests_used" (2 + 1).
Proof.
  apply (use_quota_charges_then_raises "ndvi" None (w_feb quota_no_limit)
           (advance 1 (Stored quota_no_limit) (w_feb quota_no_limit))
           quota_no_limit 80 2 0); reflexivity.
Defined.



(** ** Admission *)

(** The boolean a check returns, on a loaded quota with integer limits and
    counters. *)
Lemma check_quota_value (operation_type : string) (pu_cost : Z)
    (w w1 : World) (q : dict) (limit_pu used_pu limit_req used_req : Z) :
  load_quota w = (Ok q, w1) ->
  int_field q "monthly_limit_pu" limit_pu ->
  int_field q "processing_units_used" used_pu ->
  int_field q "monthly_limit_requests" limit_req ->
  int_field q "requests_used" used_req ->
  check_quota operation_type pu_cost w =
    (Ok (negb (limit_pu - used_pu <? pu_cost)
         && negb (limit_req - used_req <? 1)), w1).
Proof.
  intros Hload Hlp Hup Hlr Hur.
  rewrite (check_quota_after_load _ _ _ _ _ Hload).
  rewrite (remaining_pu_int q limit_pu used_pu) by done.
  by rewrite (remaining_req_int q limit_req used_req).
Qed.

(** X6: admission is monotone in the cost: in one world, whatever is
    admitted at a cost is admitted at every smaller cost, and whatever is
    refused at a cost is refused at every larger one. *)
Theorem check_quota_monotone (k k' : string) (c c' : Z) (w : World) :
  c' <= c ->
  (fst (check_quota k c w) = Ok true ->
   fst (check_quota k' c' w) = Ok true) /\
  (fst (check_quota k' c' w) = Ok false ->
   fst (check_quota k c w) = Ok false).
Proof.
  intros Hle. destruct (load_quota w) as [[q|e] w1] eqn:Hload.
  2: { unfold check_quota, bind. rewrite Hload. cbn. split; discriminate. }
  rewrite !(check_quota_after_load _ _ _ _ _ Hload). cbn [fst].
  destruct (remaining_pu q) as [rp|e]; [|cbn; split; discriminate].
  destruct (remaining_req q) as [rr|e]; [|cbn; split; discriminate]. cbn.
  destruct (Z.ltb_spec rp c), (Z.ltb_spec rp c'), (rr <? 1); cbn;
    split; intros; try done; lia.
Qed.

Lemma check_quota_monotone_witness :
  let w := w_feb (sample_quota 100 80 "2025-02") in
  (fst (check_quota "ndvi" 20 w) = Ok true ->
   fst (check_quota "ndwi" 5 w) = Ok true) /\
  (fst (check_quota "ndwi" 5 w) = Ok false ->
   fst (check_quota "ndvi" 20 w) = Ok false).
Proof.
  apply (check_quota_monotone "ndvi" "ndwi" 20 5
           (w_feb (sample_quota 100 80 "2025-02"))). lia.
Defined.

(** X7: in a new month the stored counters no longer count: whatever they
    hold (also nothing, or something that is not a number), a check on a
    file of another month admits a cost exactly when it is at most the
    limit and the request limit is at least 1. *)
Theorem check_quota_new_month (operation_type : string) (pu_cost : Z)
    (w : World) (q0 : dict) (limit_pu limit_req : Z) :
  fs w = Stored q0 -> stale (month_now w) q0 ->
  int_field q0 "monthly_limit_pu" limit_pu ->
  int_field q0 "monthly_limit_requests" limit_req ->
  exists b, fst (check_quota operation_type pu_cost w) = Ok b /\
    (b = true <-> pu_cost <= limit_pu /\ 1 <= limit_req).
Proof.
  intros Hfs Hst Hlp Hlr.
  pose proof (load_quota_new_month w q0 Hfs Hst) as Hload. cbv zeta in Hload.
  pose proof (reset_month_fields (month_now w) q0) as (_ & Hu & Hr & _).
  pose proof (reset_month_other (month_now w) q0) as Hother.
  erewrite (check_quota_value _ _ _ _ _ limit_pu 0 limit_req 0 Hload).
  - eexists. split; [reflexivity|].
    rewrite andb_true_iff, !negb_true_iff, !Z.ltb_ge. lia.
  - unfold int_field. rewrite stamp_lookup by done.
    rewrite Hother; [done|notin_keys].
  - unfold int_field. by rewrite stamp_lookup.
  - unfold int_field. rewrite stamp_lookup by done.
    rewrite Hother; [done|notin_keys].
  - unfold int_field. by rewrite stamp_lookup.
Qed.

Lemma check_quota_new_month_witness :
  exists b, fst (check_quota "ndvi" 30 (w_feb quota_stale_garbage)) = Ok b /\
    (b = true <-> 30 <= 500 /\ 1 <= 10).
Proof.
  apply (check_quota_new_month "ndvi" 30 (w_feb quota_stale_garbage)
           quota_stale_garbage 500 10); try reflexivity.
  unfold stale. vm_compute. discriminate.
Defined.

(** ** Check, then commit *)

Lemma stamp_int_field (stampv key : string) (q : dict) (n : Z) :
  key <> "last_updated" -> int_field q key n ->
  int_field (<["last_updated" := PStr stampv]> q) key n.
Proof. intros Hk Hn. unfold int_field. by rewrite stamp_lookup. Qed.

(** A load of a sound file returns a sound ledger, which is what the file
    then holds. *)
Lemma load_quota_sound (w : World) :
  sound_file (fs w) ->
  exists q w1, load_quota w = (Ok q, w1) /\ fs w1 = Stored q /\
    sound_ledger q.
Proof.
  intros (q0 & Hfs & L & u & Lr & r & n & HL & Hu & HLr & Hr & Hn & Hub & Hrb).
  destruct (stale_dec (month_now w) q0) as [Hs|Hs].
  - eexists _, _. split; [by apply load_quota_new_month|].
    split; [reflexivity|].
    pose proof (reset_month_fields (month_now w) q0) as (_ & Hu0 & Hr0 & Hn0).
    pose proof (reset_month_other (month_now w) q0) as Hother.
    exists L, 0, Lr, 0, 0.
    repeat split; try lia; apply stamp_int_field; try done;
      unfold int_field; rewrite Hother; try done; notin_keys.
  - eexists _, _. split; [by apply load_quota_same_month|].
    split; [by rewrite Hfs|]. by exists L, u, Lr, r, n.
Qed.

(** A commit that fits keeps the ledger sound. *)
Lemma use_quota_fits (operation_type : string) (pu_cost : option Z)
    (w w1 : World) (q : dict) (L u Lr r n : Z) :
  load_quota w = (Ok q, w1) ->
  int_field q "monthly_limit_pu" L ->
  int_field q "processing_units_used" u ->
  int_field q "monthly_limit_requests" Lr ->
  int_field q "requests_used" r ->
  int_field q "collections_today" n ->
  0 <= u -> 0 <= u + resolve_cost operation_type pu_cost <= L ->
  0 <= r -> r + 1 <= Lr ->
  exists q',
    use_quota operation_type pu_cost w = (Ok tt, advance 2 (Stored q') w1) /\
    sound_ledger q' /\
    int_field q' "processing_units_used"
      (u + resolve_cost operation_type pu_cost) /\
    int_field q' "requests_used" (r + 1).
Proof.
  intros Hload HL Hu HLr Hr Hn Hu0 Hfit Hr0 Hrfit.
  destruct (use_quota_effect operation_type pu_cost w w1 q u r n)
    as (q' & Hsnd & Hc & Hfst); try done.
  specialize (Hfst L HL).
  destruct Hc as (Hu' & Hr' & _ & Hn' & _ & Hsame).
  exists q'. split; [|split; [|done]].
  - destruct (use_quota operation_type pu_cost w) as [res w'].
    cbn in Hsnd, Hfst. by subst.
  - eexists L, _, Lr, _, _.
    split; [unfold int_field; rewrite Hsame; [done|notin_keys]|].
    split; [exact Hu'|].
    split; [unfold int_field; rewrite Hsame; [done|notin_keys]|].
    split; [exact Hr'|]. split; [exact Hn'|]. lia.
Qed.

(** The commit may take its cost from the table, as long as it is the
    cost that was checked. *)
Lemma commit_after_check (k k' : string) (pu_cost : option Z) (c : Z)
    (w w1 w2 : World) :
  sound_file (fs w) -> 0 <= c -> resolve_cost k' pu_cost = c ->
  check_quota k c w = (Ok true, w1) ->
  fs w2 = fs w1 ->
  exists w3, use_quota k' pu_cost w2 = (Ok tt, w3) /\ sound_file (fs w3) /\
    clock w3 = clock w2.
Proof.
  intros Hsound Hc Hcost Hcheck Hfs.
  destruct (load_quota_sound w Hsound)
    as (q & w1' & Hload & Hst & L & u & Lr & r & n
        & HL & Hu & HLr & Hr & Hn & Hub & Hrb).
  rewrite (check_quota_value k c w w1' q L u Lr r) in Hcheck by done.
  injection Hcheck as Hb <-.
  apply andb_true_iff in Hb as [Hb1 Hb2].
  apply negb_true_iff, Z.ltb_ge in Hb1, Hb2.
  assert (Hfs2 : fs w2 = Stored q) by congruence.
  destruct (stale_dec (month_now w2) q) as [Hs|Hs].
  - pose proof (load_quota_new_month w2 q Hfs2 Hs) as Hload2.
    cbv zeta in Hload2.
    pose proof (reset_month_fields (month_now w2) q) as (_ & Hu0 & Hr0 & Hn0).
    pose proof (reset_month_other (month_now w2) q) as Hother.
    destruct (use_quota_fits k' pu_cost w2 _ _ L 0 Lr 0 0 Hload2)
      as (q' & Hrun & Hsq & _); try (rewrite ?Hcost; lia);
      try (apply stamp_int_field; try done;
           unfold int_field; rewrite Hother; try done; notin_keys).
    eexists. split; [exact Hrun|]. split; [by exists q'|reflexivity].
  - pose proof (load_quota_same_month w2 q Hfs2 Hs) as Hload2.
    destruct (use_quota_fits k' pu_cost w2 _ _ L u Lr r n Hload2)
      as (q' & Hrun & Hsq & _); try done; try (rewrite ?Hcost; lia).
    eexists. split; [exact Hrun|]. split; [by exists q'|reflexivity].
Qed.

(** X8: a commit made after a check that admitted its cost keeps the
    ledger within its limits.  Starting from a file whose counters are
    between zero and their limits, if a check admits the cost [c >= 0],
    then a commit of [c] that finds the file as the check left it, however
    much later and also in another month, returns normally and leaves
    counters between zero and their limits. *)
Theorem check_then_commit_sound (k k' : string) (c : Z) (w w1 w2 : World) :
  sound_file (fs w) -> 0 <= c ->
  check_quota k c w = (Ok true, w1) ->
  fs w2 = fs w1 ->
  exists w3, use_quota k' (Some c) w2 = (Ok tt, w3) /\ sound_file (fs w3).
Proof.
  intros Hsound Hc Hcheck Hfs.
  destruct (commit_after_check k k' (Some c) c w w1 w2)
    as (w3 & Hrun & Hs & _); try done.
  by exists w3.
Qed.

Lemma check_then_commit_sound_witness :
  let w := w_feb (sample_quota 100 80 "2025-02") in
  exists w3,
    use_quota "ndvi" (Some 20) (snd (check_quota "ndvi" 20 w)) = (Ok tt, w3)
    /\ sound_file (fs w3).
Proof.
  apply (check_then_commit_sound "ndvi" "ndvi" 20
           (w_feb (sample_quota 100 80 "2025-02"))
           (snd (check_quota "ndvi" 20 (w_feb (sample_quota 100 80 "2025-02"))))
           (snd (check_quota "ndvi" 20
                   (w_feb (sample_quota 100 80 "2025-02"))))).
  - exists (sample_quota 100 80 "2025-02"). split; [reflexivity|].
    exists 100, 80, 10000, 0, 0. repeat split; try reflexivity; lia.
  - lia.
  - vm_compute. reflexivity.
  - reflexivity.
Defined.

(** ** Series of commits *)

(** A ledger of month [cm] whose last commit was on day [d]. *)
Lemma use_quota_same_day (kind : string) (c : Z) (w : World) (q : dict)
    (cm d : string) (limit u r n : Z) :
  fs w = Stored q -> clock_in cm d w ->
  ledger cm limit u r q ->
  q !! "last_collection_date" = Some (PStr d) ->
  int_field q "collections_today" n ->
  exists q',
    use_quota kind (Some c) w = (Ok tt, advance 3 (Stored q') w) /\
    ledger cm limit (u + c) (r + 1) q' /\
    q' !! "last_collection_date" = Some (PStr d) /\
    int_field q' "collections_today" (n + 1).
Proof.
  intros Hfs Hclock (Hcm & Hl & Hu & Hr & _) Hlcd Hn.
  assert (Hmonth : month_now w = cm) by apply Hclock.
  assert (Hload : load_quota w = (Ok q, advance 1 (fs w) w)).
  { apply load_quota_same_month; [done|]. unfold stale. rewrite Hmonth. tauto. }
  assert (Hday : today_now (advance 1 (fs w) w) = d) by apply Hclock.
  destruct (use_quota_effect kind (Some c) w _ q u r n Hload Hu Hr)
    as (q' & Hsnd & Hc & Hfst); [done|].
  specialize (Hfst limit Hl). unfold committed in Hc. rewrite Hday in Hc.
  destruct Hc as (Hu' & Hr' & Hlcd' & Hn' & _ & Hsame).
  rewrite decide_True in Hn' by done.
  exists q'. split; [|split; [|done]].
  - destruct (use_quota kind (Some c) w) as [res w'].
    cbn in Hsnd, Hfst. by subst.
  - unfold ledger. split; [rewrite Hsame; [done|notin_keys]|].
    split; [unfold int_field; rewrite Hsame; [done|notin_keys]|].
    split; [done|]. split; [done|]. by eexists.
Qed.

Lemma clock_in_advance (cm d : string) (n : nat) (f : file_state) (w : World) :
  clock_in cm d w -> clock_in cm d (advance n f w).
Proof. intros H k. apply H. Qed.

(** Commits made on the day of the last commit. *)
Lemma commits_same_day (l : list (string * Z)) :
  forall (w : World) (q : dict) (cm d : string) (limit u r n : Z),
    fs w = Stored q -> clock_in cm d w ->
    ledger cm limit u r q ->
    q !! "last_collection_date" = Some (PStr d) ->
    int_field q "collections_today" n ->
    exists q' w',
      commits l w = (Ok tt, w') /\ fs w' = Stored q' /\
      clock w' = clock w /\ ticks w' = (3 * length l + ticks w)%nat /\
      ledger cm limit (u + total_cost l) (r + Z.of_nat (length l)) q' /\
      q' !! "last_collection_date" = Some (PStr d) /\
      int_field q' "collections_today" (n + Z.of_nat (length l)).
Proof.
  induction l as [|[kind c] l IH]; intros w q cm d limit u r n
    Hfs Hclock Hled Hlcd Hn.
  - exists q, w. cbn [commits total_cost foldr length Z.of_nat].
    rewrite !Z.add_0_r. unfold ret. by repeat (split; [done|]).
  - destruct (use_quota_same_day kind c w q cm d limit u r n)
      as (q1 & Hrun & Hled1 & Hlcd1 & Hn1); try done.
    destruct (IH (advance 3 (Stored q1) w) q1 cm d limit (u + c) (r + 1)
                (n + 1) eq_refl (clock_in_advance _ _ _ _ _ Hclock)
                Hled1 Hlcd1 Hn1)
      as (q' & w' & Hrest & Hfs' & Hck & Htk & Hled' & Hlcd' & Hn').
    exists q', w'. cbn [commits]. unfold bind. rewrite Hrun, Hrest.
    split; [done|]. split; [done|]. split; [done|].
    split; [rewrite Htk; cbn [length advance ticks]; lia|].
    cbn [total_cost foldr snd length]. fold (total_cost l).
    replace (u + (c + total_cost l)) with (u + c + total_cost l) by lia.
    replace (r + Z.of_nat (S (length l)))
      with (r + 1 + Z.of_nat (length l)) by lia.
    replace (n + Z.of_nat (S (length l)))
      with (n + 1 + Z.of_nat (length l)) by lia.
    done.
Qed.

(** X9: any series of commits made on one day adds up: starting from a
    ledger of the current month whose last commit was on another day (or
    that has none yet), after the commits the file holds the old usage plus
    the sum of the costs, the old request count plus the number of
    commits, and a daily counter equal to the number of commits. *)
Theorem commits_accumulate (l : list (string * Z)) (w : World) (q : dict)
    (cm d : string) (limit u r : Z) :
  l <> [] ->
  fs w = Stored q -> clock_in cm d w ->
  ledger cm limit u r q ->
  q !! "last_collection_date" <> Some (PStr d) ->
  exists q' w',
    commits l w = (Ok tt, w') /\ fs w' = Stored q' /\
    int_field q' "processing_units_used" (u + total_cost l) /\
    int_field q' "requests_used" (r + Z.of_nat (length l)) /\
    int_field q' "collections_today" (Z.of_nat (length l)) /\
    q' !! "last_collection_date" = Some (PStr d) /\
    int_field q' "monthly_limit_pu" limit.
Proof.
  intros Hne Hfs Hclock Hled Hlcd.
  destruct l as [|[kind c] l]; [done|]. clear Hne.
  destruct Hled as (Hcm & Hl & Hu & Hr & n0 & Hn0).
  assert (Hmonth : month_now w = cm) by apply Hclock.
  assert (Hload : load_quota w = (Ok q, advance 1 (fs w) w)).
  { apply load_quota_same_month; [done|]. unfold stale. rewrite Hmonth. tauto. }
  assert (Hday : today_now (advance 1 (fs w) w) = d) by apply Hclock.
  destruct (use_quota_effect kind (Some c) w _ q u r 0 Hload Hu Hr)
    as (q1 & Hsnd & Hc & Hfst).
  { rewrite Hday. done. }
  specialize (Hfst limit Hl). unfold committed in Hc. rewrite Hday in Hc.
  destruct Hc as (Hu1 & Hr1 & Hlcd1 & Hn1 & _ & Hsame).
  rewrite decide_False in Hn1 by done.
  assert (Hrun : use_quota kind (Some c) w = (Ok tt, advance 3 (Stored q1) w)).
  { destruct (use_quota kind (Some c) w) as [res w'].
    cbn in Hsnd, Hfst. by subst. }
  assert (Hled1 : ledger cm limit (u + c) (r + 1) q1).
  { unfold ledger. split; [rewrite Hsame; [done|notin_keys]|].
    split; [unfold int_field; rewrite Hsame; [done|notin_keys]|].
    split; [done|]. split; [done|]. by eexists. }
  destruct (commits_same_day l (advance 3 (Stored q1) w) q1 cm d limit
              (u + c) (r + 1) 1 eq_refl (clock_in_advance _ _ _ _ _ Hclock)
              Hled1 Hlcd1 Hn1)
    as (q' & w' & Hrest & Hfs' & _ & _ & Hled' & Hlcd' & Hn').
  exists q', w'. cbn [commits]. unfold bind. rewrite Hrun, Hrest.
  destruct Hled' as (_ & Hl' & Hu' & Hr' & _).
  cbn [total_cost foldr snd length]. fold (total_cost l).
  replace (u + (c + total_cost l)) with (u + c + total_cost l) by lia.
  replace (r + Z.of_nat (S (length l)))
    with (r + 1 + Z.of_nat (length l)) by lia.
  replace (Z.of_nat (S (length l))) with (1 + Z.of_nat (length l)) by lia.
  by repeat split.
Qed.

Lemma commits_accumulate_witness :
  let l := [("map_rgb", 50); ("ndvi", 30); ("ndwi", 30); ("ndsi", 30)] in
  let q := sample_quota 10000 120 "2025-02" in
  exists q' w',
    commits l (w_feb q) = (Ok tt, w') /\ fs w' = Stored q' /\
    int_field q' "processing_units_used" (120 + total_cost l) /\
    int_field q' "requests_used" (0 + Z.of_nat (length l)) /\
    int_field q' "collections_today" (Z.of_nat (length l)) /\
    q' !! "last_collection_date" = Some (PStr "2025-02-10") /\
    int_field q' "monthly_limit_pu" 10000.
Proof.
  apply (commits_accumulate
           [("map_rgb", 50); ("ndvi", 30); ("ndwi", 30); ("ndsi", 30)]
           (w_feb (sample_quota 10000 120 "2025-02"))
           (sample_quota 10000 120 "2025-02") "2025-02" "2025-02-10"
           10000 120 0).
  - discriminate.
  - reflexivity.
  - intros n. split; reflexivity.
  - unfold ledger. repeat split; try reflexivity. exists 0. reflexivity.
  - vm_compute. discriminate.
Defined.

(** X10: a check that follows a commit sees the commit: in the month of
    the ledger, after a commit of [c] the cost [c'] is admitted exactly
    when it fits in what the commit left, [limit - used - c], and a request
    is left after the one the commit took. *)
Theorem check_after_commit (k k' : string) (c c' : Z) (w : World) (q : dict)
    (limit_pu used_pu limit_req used_req n : Z) :
  fs w = Stored q -> ~ stale (month_now w) q ->
  int_field q "monthly_limit_pu" limit_pu ->
  int_field q "processing_units_used" used_pu ->
  int_field q "monthly_limit_requests" limit_req ->
  int_field q "requests_used" used_req ->
  int_field q "collections_today" n ->
  let w' := snd (use_quota k (Some c) w) in
  month_now w' = month_now w ->
  fst (use_quota k (Some c) w) = Ok tt /\
  exists b, fst (check_quota k' c' w') = Ok b /\
    (b = true <->
     c' <= limit_pu - used_pu - c /\ 1 <= limit_req - used_req - 1).
Proof.
  intros Hfs Hcur HL Hu HLr Hr Hn w' Hmonth. subst w'.
  pose proof (load_quota_same_month w q Hfs Hcur) as Hload.
  destruct (use_quota_effect k (Some c) w _ q used_pu used_req n Hload Hu Hr)
    as (q' & Hsnd & Hc & Hfst); [done|].
  specialize (Hfst limit_pu HL). split; [done|].
  rewrite Hsnd in *. cbn [resolve_cost] in Hc.
  destruct Hc as (Hu' & Hr' & _ & _ & _ & Hsame).
  assert (Hcm : ~ stale (month_now w) q').
  { unfold stale in *. rewrite Hsame; [done|notin_keys]. }
  rewrite <- Hmonth in Hcm.
  pose proof (load_quota_same_month
                (advance 2 (Stored q') (advance 1 (fs w) w)) q' eq_refl Hcm)
    as Hload'.
  erewrite (check_quota_value k' c' _ _ q' limit_pu (used_pu + c)
              limit_req (used_req + 1) Hload'); try done.
  - eexists. split; [reflexivity|].
    rewrite andb_true_iff, !negb_true_iff, !Z.ltb_ge. lia.
  - unfold int_field. rewrite Hsame; [done|notin_keys].
  - unfold int_field. rewrite Hsame; [done|notin_keys].
Qed.

Lemma check_after_commit_witness :
  let w := w_feb (sample_quota 100 50 "2025-02") in
  let w' := snd (use_quota "ndvi" (Some 30) w) in
  fst (use_quota "ndvi" (Some 30) w) = Ok tt /\
  exists b, fst (check_quota "ndwi" 30 w') = Ok b /\
    (b = true <-> 30 <= 100 - 50 - 30 /\ 1 <= 10000 - 0 - 1).
Proof.
  apply (check_after_commit "ndvi" "ndwi" 30 30
           (w_feb (sample_quota 100 50 "2025-02"))
           (sample_quota 100 50 "2025-02") 100 50 10000 0 0);
    try reflexivity.
  unfold stale. intros H. apply H. reflexivity.
Defined.

(** ** Days and budget *)

(** X11: on a valid datetime other than in December 9999 the days
    remaining in the month are between 0 and 31, at most the length of the
    month, and 0 exactly on the last day of the month after midnight. *)
Theorem days_remaining_bounds (today : datetime) :
  valid today = true -> ~ last_december today ->
  exists d, days_remaining_in_month today = Ok d /\
    0 <= d <= days_in_month (year today) (month today) /\ d <= 31 /\
    (d = 0 <->
     day today = days_in_month (year today) (month today) /\
     at_midnight today = false).
Proof.
  intros Hv Hlast.
  destruct (days_remaining_in_month_run today Hv Hlast) as [Hrun _].
  rewrite sub_days_floor, (whole_days_to_next_month today Hv) in Hrun.
  pose proof (valid_bounds today Hv) as (_ & _ & Hd & _).
  pose proof (days_in_month_bounds (year today) (month today)).
  eexists. split; [exact Hrun|].
  destruct (at_midnight today); (split; [lia|]); (split; [lia|]); split.
  - lia.
  - intros [_ Hmid]. discriminate.
  - lia.
  - lia.
Qed.

Lemma days_remaining_bounds_witness :
  let today := mk_dt 2024 2 29 18 0 0 0 in
  exists d, days_remaining_in_month today = Ok d /\
    0 <= d <= days_in_month (year today) (month today) /\ d <= 31 /\
    (d = 0 <->
     day today = days_in_month (year today) (month today) /\
     at_midnight today = false).
Proof.
  apply (days_remaining_bounds (mk_dt 2024 2 29 18 0 0 0)).
  - reflexivity.
  - unfold last_december. cbn. intros [H _]. discriminate.
Defined.

(** X12: the recommended budget never overspends: in every status that is
    returned with units remaining, the safe daily budget is not negative
    and the budget times the days remaining is at most the units
    remaining. *)
Theorem safe_daily_pu_within_remaining (w w' : World) (s : status) :
  get_quota_status w = (Ok s, w') ->
  0 <= st_pu_remaining s ->
  0 <= st_safe_daily_pu s /\
  st_safe_daily_pu s * st_days_remaining s <= st_pu_remaining s.
Proof.
  intros Hs Hrem.
  apply get_quota_status_inv in Hs as (q & w1 & _ & _ & _ & _ & Hsafe).
  rewrite safe_daily_pu_total in Hsafe. injection Hsafe as Hsafe.
  destruct (Z.ltb_spec 0 (st_days_remaining s)) as [Hd|Hd].
  - rewrite Z.max_l in Hsafe by lia. rewrite <- Hsafe. split.
    + apply Z.div_pos; lia.
    + rewrite Z.mul_comm. apply Z.mul_div_le. lia.
  - rewrite <- Hsafe. lia.
Qed.

Lemma safe_daily_pu_within_remaining_witness :
  let s := mk_status (PInt 7000) 3000 (PInt 10000) (PInt 0) 10000
             (inject_Z 7000 / inject_Z 10000 * 100)%Q 10 300 (PInt 0) in
  0 <= st_safe_daily_pu s /\
  st_safe_daily_pu s * st_days_remaining s <= st_pu_remaining s.
Proof.
  apply (safe_daily_pu_within_remaining w_ten_days
           (snd (get_quota_status w_ten_days))
           (mk_status (PInt 7000) 3000 (PInt 10000) (PInt 0) 10000
              (inject_Z 7000 / inject_Z 10000 * 100)%Q 10 300 (PInt 0))).
  - reflexivity.
  - cbn. lia.
Defined.

(** * The collection run *)

(** ** Rules for what a run guarantees *)

Lemma hoare_rseq {A B} (inv : World -> Prop) (m : R A) (k : A -> R B) :
  hoare inv m inv -> (forall a, hoare inv (k a) inv) ->
  hoare inv (rseq m k) inv.
Proof.
  intros Hm Hk w Hw. unfold rseq. specialize (Hm w Hw).
  destruct (m w) as [[a|e] w']; cbn in Hm; [by apply Hk|done].
Qed.

Lemma hoare_rret {A} (inv : World -> Prop) (a : A) : hoare inv (rret a) inv.
Proof. by intros w Hw. Qed.

Lemma hoare_quota {A} (inv : World -> Prop) (m : M A) :
  (forall w, inv w -> inv (snd (m w))) -> hoare inv (quota m) inv.
Proof.
  intros Hm w Hw. unfold quota. specialize (Hm w Hw).
  by destruct (m w) as [[a|e] w'].
Qed.

Lemma hoare_keeps_file {A} (m : R A) :
  keeps_file m -> hoare sound_world m sound_world.
Proof. intros Hm w Hw. unfold sound_world. by rewrite Hm. Qed.

(** ** The quota functions keep a sound file sound *)

Lemma load_quota_keeps_sound (w : World) :
  sound_world w -> sound_world (snd (load_quota w)).
Proof.
  intros Hw. destruct (load_quota_sound w Hw) as (q & w1 & -> & Hfs & Hq).
  unfold sound_world. cbn. by exists q.
Qed.

Lemma check_quota_keeps_sound (kind : string) (c : Z) (w : World) :
  sound_world w -> sound_world (snd (check_quota kind c w)).
Proof. rewrite check_quota_world. apply load_quota_keeps_sound. Qed.

Lemma print_quota_status_file (w : World) :
  fs (snd (print_quota_status w)) = fs (snd (load_quota w)).
Proof.
  unfold print_quota_status, bind. rewrite <- get_quota_status_file.
  by destruct (get_quota_status w) as [[s|e] w'].
Qed.

Lemma print_quota_status_keeps_sound (w : World) :
  sound_world w -> sound_world (snd (print_quota_status w)).
Proof.
  intros Hw. unfold sound_world. rewrite print_quota_status_file.
  by apply load_quota_keeps_sound.
Qed.

(** The costs of the table are positive, and a commit without a cost
    charges what the table holds. *)
Lemma pu_cost_of_resolve (kind : string) (c : Z) :
  pu_cost_of kind = Ok c -> resolve_cost kind None = c /\ 0 < c.
Proof.
  unfold pu_cost_of, resolve_cost.
  destruct (PU_COSTS !! kind) as [c'|] eqn:E; [|discriminate].
  intros [= ->]. split; [done|].
  apply elem_of_list_to_map_2 in E.
  repeat (apply elem_of_cons in E as [E|E]; [inversion E; subst; lia|]).
  by apply elem_of_nil in E.
Qed.

(** ** The run keeps the ledger within its limits *)

(** A gated operation: the commit is made only after the check admitted its
    cost, on the file as the check left it. *)
Lemma gated_keeps_sound {P} (kind : string) (op : R (option P))
    (results : gmap string (option P)) :
  keeps_file op -> hoare sound_world (gated kind op results) sound_world.
Proof.
  intros Hop w Hw. unfold gated, rseq, quota, lift.
  destruct (pu_cost_of kind) as [c|e] eqn:Ec; [|exact Hw].
  destruct (pu_cost_of_resolve kind c Ec) as [Hres Hpos].
  pose proof (check_quota_keeps_sound kind c w Hw) as Hck.
  destruct (check_quota kind c w) as [[[|]|e] w1] eqn:Hcheck;
    cbn [snd] in *; try exact Hck.
  pose proof (Hop w1) as Hfs.
  destruct (op w1) as [[[p|]|e] w2]; cbn [snd] in *.
  - destruct (commit_after_check kind kind None c w w1 w2)
      as (w3 & Hrun & Hsound & _); try done; [lia|].
    rewrite Hrun. exact Hsound.
  - unfold rret, sound_world in *. cbn [snd]. by rewrite Hfs.
  - unfold sound_world in *. by rewrite Hfs.
Qed.

Lemma collect_steps_keeps_sound {P} (io : providers P) (mode : string)
    (results : gmap string (option P)) :
  providers_keep_file io ->
  hoare sound_world (collect_steps io mode results) sound_world.
Proof.
  intros (_ & Hmap & Hndvi & Hndwi & Hndsi & _). unfold collect_steps.
  destruct (decide (mode = "normal")); [|destruct (decide (mode = "economic"))].
  - do 4 (apply hoare_rseq; [by apply gated_keeps_sound|intros ?]).
    by apply gated_keeps_sound.
  - do 2 (apply hoare_rseq; [by apply gated_keeps_sound|intros ?]).
    by apply gated_keeps_sound.
  - by apply gated_keeps_sound.
Qed.

Lemma save_results_keeps_sound {P} (io : providers P)
    (results : gmap string (option P)) :
  providers_keep_file io ->
  hoare sound_world (save_results io results) sound_world.
Proof.
  intros (_ & _ & _ & _ & _ & Hdir & Hstore). unfold save_results.
  destruct (decide (results = ∅)); [apply hoare_rret|].
  apply hoare_rseq; [by apply hoare_quota|intros ?].
  apply hoare_rseq; [by apply hoare_keeps_file|intros ?].
  apply hoare_rseq; [by intros w Hw|intros ?].
  by apply hoare_keeps_file.
Qed.

(** X13: a collection run keeps the ledger within its limits.  When the
    providers leave the quota file alone, a run in any mode that starts
    with counters between zero and their limits ends, however it ends
    (results, refusal, or an exception on the way), with counters between
    zero and their limits. *)
Theorem collect_keeps_limits {P} (io : providers P) (mode : string)
    (w : World) :
  providers_keep_file io ->
  sound_file (fs w) ->
  sound_file (fs (snd (collect_all_copernicus_data io mode w))).
Proof.
  intros Hio Hw. pose proof Hio as (Hweather & _).
  assert (H : hoare sound_world (collect_all_copernicus_data io mode)
                sound_world); [|by apply H].
  unfold collect_all_copernicus_data.
  apply hoare_rseq; [by apply hoare_quota|intros ?].
  apply hoare_rseq;
    [apply hoare_quota, print_quota_status_keeps_sound|intros ?].
  apply hoare_rseq;
    [apply hoare_quota, check_quota_keeps_sound|intros admitted].
  destruct admitted; cbn [negb]; [|apply hoare_rret].
  apply hoare_rseq; [by apply hoare_keeps_file|intros weather].
  apply hoare_rseq; [by apply collect_steps_keeps_sound|intros results].
  apply hoare_rseq;
    [apply hoare_quota, print_quota_status_keeps_sound|intros ?].
  apply hoare_rseq; [by apply save_results_keeps_sound|intros ?].
  apply hoare_rret.
Qed.

Lemma io_ok_keeps_file : providers_keep_file io_ok.
Proof. repeat split; intros w; reflexivity. Qed.

Lemma collect_keeps_limits_witness :
  sound_file
    (fs (snd (collect_all_copernicus_data io_ok "normal"
                (w_feb (sample_quota 100 80 "2025-02"))))).
Proof.
  apply (collect_keeps_limits io_ok "normal"
           (w_feb (sample_quota 100 80 "2025-02")) io_ok_keeps_file).
  exists (sample_quota 100 80 "2025-02"). split; [reflexivity|].
  exists 100, 80, 10000, 0, 0. repeat split; try reflexivity; lia.
Defined.

(** ** A provider that returns nothing *)

Lemma gated_keeps_other {P} (kind key : string) (op : R (option P))
    (results results' : gmap string (option P)) (w w' : World) :
  kind <> key ->
  gated kind op results w = (Done results', w') ->
  results' !! key = results !! key.
Proof.
  intros Hne. unfold gated, rseq, quota, lift, rret.
  destruct (pu_cost_of kind) as [c|e]; [|discriminate].
  destruct (check_quota kind c w) as [[[|]|e] w1]; try discriminate.
  - destruct (op w1) as [[[p|]|e] w2]; try discriminate.
    + destruct (use_quota kind None w2) as [[u|e] w3]; [|discriminate].
      intros [= <- _]. by rewrite lookup_insert_ne.
    + intros [= <- _]. by rewrite lookup_insert_ne.
  - by intros [= <- _].
Qed.

Lemma collect_steps_keeps_weather {P} (io : providers P) (mode : string)
    (results results' : gmap string (option P)) (w w' : World) :
  collect_steps io mode results w = (Done results', w') ->
  results' !! "weather" = results !! "weather".
Proof.
  unfold collect_steps, rseq.
  destruct (decide (mode = "normal")) as [Hn|Hn];
    [|destruct (decide (mode = "economic")) as [He|He]].
  - destruct (gated "map_rgb" _ results w) as [[r1|x] w1] eqn:E1;
      [|discriminate].
    destruct (gated "map_ndvi" _ r1 w1) as [[r2|x] w2] eqn:E2; [|discriminate].
    destruct (gated "ndvi" _ r2 w2) as [[r3|x] w3] eqn:E3; [|discriminate].
    destruct (gated "ndwi" _ r3 w3) as [[r4|x] w4] eqn:E4; [|discriminate].
    intros E5.
    apply (gated_keeps_other _ "weather") in E1, E2, E3, E4, E5; try done.
    congruence.
  - destruct (gated "ndvi" _ results w) as [[r1|x] w1] eqn:E1; [|discriminate].
    destruct (gated "ndwi" _ r1 w1) as [[r2|x] w2] eqn:E2; [|discriminate].
    intros E3.
    apply (gated_keeps_other _ "weather") in E1, E2, E3; try done.
    congruence.
  - intros E1. by apply (gated_keeps_other _ "weather") in E1.
Qed.

Lemma build_row_without_weather {P} (results : gmap string (option P)) :
  results !! "weather" = Some None -> build_row results = Failed AttributeError.
Proof.
  intros H. unfold build_row, nested_get. rewrite H.
  by repeat case_match.
Qed.

Lemma save_results_without_weather {P} (io : providers P)
    (results : gmap string (option P)) (w : World) :
  results !! "weather" = Some None ->
  fst (save_results io results w) <> Done tt /\
  ((forall w', fst (make_data_dir io w') = Done tt) ->
   save_results io results w
     = (Failed AttributeError,
        snd (make_data_dir io (advance 1 (fs w) w)))).
Proof.
  intros Hw. unfold save_results.
  destruct (decide (results = ∅)) as [->|_]; [by rewrite lookup_empty in Hw|].
  unfold rseq, quota. cbn [now].
  change (mk_world (fs w) (clock w) (S (ticks w))) with (advance 1 (fs w) w).
  rewrite (build_row_without_weather results Hw). split.
  - by destruct (make_data_dir io (advance 1 (fs w) w)) as [[[]|e] w'].
  - intros Hdir. specialize (Hdir (advance 1 (fs w) w)).
    destruct (make_data_dir io (advance 1 (fs w) w)) as [[[]|e] w'];
      cbn in *; [done|discriminate].
Qed.

(** X14: a run whose weather provider returns [None] never returns its
    results.  [save_results] reads [results.get('weather', {}).get(...)];
    the key is there and holds [None], so when the data directory can be
    made the row fails with [AttributeError] and nothing is stored; the
    run itself ends refused or with an exception, after the commits it
    made. *)
Theorem collect_without_weather {P} (io : providers P) :
  (forall (results : gmap string (option P)) (w : World),
     results !! "weather" = Some None ->
     (forall w', fst (make_data_dir io w') = Done tt) ->
     save_results io results w
       = (Failed AttributeError,
          snd (make_data_dir io (advance 1 (fs w) w))))
  /\
  ((forall w', fst (get_weather_data io w') = Done None) ->
   forall (mode : string) (w : World) results,
     fst (collect_all_copernicus_data io mode w) <> Done (Some results)).
Proof.
  split.
  - intros results w Hw Hdir.
    by apply (save_results_without_weather io results w).
  - intros Hnone mode w results.
    unfold collect_all_copernicus_data, rseq, quota. cbn [now].
    destruct (print_quota_status _) as [[u|e] w1]; [|done].
    destruct (check_quota _ _ w1) as [[[|]|e] w2]; cbn [negb]; try done.
    specialize (Hnone w2).
    destruct (get_weather_data io w2) as [[weather|e] w3]; [|done].
    cbn in Hnone. injection Hnone as ->.
    destruct (collect_steps io mode _ w3) as [[r|e] w4] eqn:Esteps; [|done].
    apply collect_steps_keeps_weather in Esteps.
    rewrite lookup_insert_eq in Esteps.
    destruct (print_quota_status w4) as [[u2|e] w5]; [|done].
    pose proof (save_results_without_weather io r w5 Esteps) as [Hsave _].
    destruct (save_results io r w5) as [[[]|e] w6]; cbn in *; done.
Qed.

Lemma collect_without_weather_witness :
  let w := w_feb (sample_quota 10000 120 "2025-02") in
  fst (collect_all_copernicus_data io_no_weather "economic" w)
    = Failed AttributeError /\
  stored_field (fs (snd (collect_all_copernicus_data io_no_weather
                           "economic" w))) "processing_units_used"
    = Some (PInt (120 + 90)) /\
  forall results,
    fst (collect_all_copernicus_data io_no_weather "economic" w)
      <> Done (Some results).
Proof.
  destruct (collect_without_weather io_no_weather) as [_ Hrun].
  split; [vm_compute; reflexivity|]. split; [vm_compute; reflexivity|].
  intros results.
  apply (Hrun (fun w' => eq_refl) "economic"
           (w_feb (sample_quota 10000 120 "2025-02"))).
Defined.
